(** * mdweb: the line classifier of a literate-programming tool

    A shallow embedding of [src/mdweb.go] (the variant that keeps the
    classifier state in package-level variables) and of
    [src/unnamed/part_001] (the variant whose states are functions closed over
    a [StateData] value), with the properties of the line classifier, the
    directive parser and the derivation of the default output names. *)

From Stdlib Require Import String Ascii List Bool Arith Lia.
Import ListNotations.
Local Open Scope string_scope.

(** ** The Go library functions the program calls

    Go strings are byte sequences: [string] with [ascii] as the byte. *)
Module Go.

Definition tab : ascii := "009"%char.
Definition nl : ascii := "010"%char.

(** [s[n:]].  Go panics when [n > len(s)]; every call of the program is
    guarded by [HasPrefix], so that the last equation is never used. *)
Fixpoint slice_from (n : nat) (s : string) : string :=
  match n, s with
  | 0, _ => s
  | S n', String _ s' => slice_from n' s'
  | S _, EmptyString => EmptyString
  end.

(** [strings.HasPrefix(s, prefix)] *)
Fixpoint HasPrefix (s pre : string) {struct pre} : bool :=
  match pre, s with
  | EmptyString, _ => true
  | String c pre', String d s' => Ascii.eqb c d && HasPrefix s' pre'
  | String _ _, EmptyString => false
  end.

Definition rev_string (s : string) : string :=
  string_of_list_ascii (rev (list_ascii_of_string s)).

(** *** [strings.TrimSpace]

    [unicode.IsSpace] on the UTF-8 encoded runes of the string.  The
    one-byte white space is '\t', '\n', '\v', '\f', '\r' and ' '. *)
Definition isAsciiSpace (c : ascii) : bool :=
  let n := nat_of_ascii c in (((9 <=? n) && (n <=? 13)) || (n =? 32))%nat.

(** U+0085 (C2 85) and U+00A0 (C2 A0). *)
Definition isSpace2 (c1 c2 : ascii) : bool :=
  ((nat_of_ascii c1 =? 194) &&
   ((nat_of_ascii c2 =? 133) || (nat_of_ascii c2 =? 160)))%nat.

(** U+1680 (E1 9A 80), U+2000..U+200A (E2 80 80..8A), U+2028, U+2029
    (E2 80 A8, A9), U+202F (E2 80 AF), U+205F (E2 81 9F), U+3000
    (E3 80 80). *)
Definition isSpace3 (c1 c2 c3 : ascii) : bool :=
  let n1 := nat_of_ascii c1 in
  let n2 := nat_of_ascii c2 in
  let n3 := nat_of_ascii c3 in
  (((n1 =? 225) && (n2 =? 154) && (n3 =? 128)) ||
   ((n1 =? 226) && (n2 =? 128) &&
      (((128 <=? n3) && (n3 <=? 138)) || (n3 =? 168) || (n3 =? 169) || (n3 =? 175))) ||
   ((n1 =? 226) && (n2 =? 129) && (n3 =? 159)) ||
   ((n1 =? 227) && (n2 =? 128) && (n3 =? 128)))%nat.

(** Drops the white-space runes at the head of [s].  With [back = true]
    the bytes of [s] are in reverse order, so that the same scan trims the
    end of a string. *)
Fixpoint dropSpaces (back : bool) (s : string) : string :=
  match s with
  | String c1 s1 =>
      if isAsciiSpace c1 then dropSpaces back s1 else
      match s1 with
      | String c2 s2 =>
          if (if back then isSpace2 c2 c1 else isSpace2 c1 c2)
          then dropSpaces back s2 else
          match s2 with
          | String c3 s3 =>
              if (if back then isSpace3 c3 c2 c1 else isSpace3 c1 c2 c3)
              then dropSpaces back s3 else s
          | EmptyString => s
          end
      | EmptyString => s
      end
  | EmptyString => s
  end.

Definition TrimLeftSpace (s : string) : string := dropSpaces false s.
Definition TrimRightSpace (s : string) : string :=
  rev_string (dropSpaces true (rev_string s)).
Definition TrimSpace (s : string) : string := TrimRightSpace (TrimLeftSpace s).

(** *** [path/filepath] on a Unix system: the separator is '/', there is
    no volume name. *)
Definition IsPathSeparator (c : ascii) : bool := Ascii.eqb c "/".
Definition isDot (c : ascii) : bool := Ascii.eqb c ".".

Fixpoint dropWhile (p : ascii -> bool) (l : list ascii) : list ascii :=
  match l with
  | c :: l' => if p c then dropWhile p l' else l
  | [] => []
  end.

Fixpoint takeWhile (p : ascii -> bool) (l : list ascii) : list ascii :=
  match l with
  | c :: l' => if p c then c :: takeWhile p l' else []
  | [] => []
  end.

(** [filepath.Base]: the last element of the path, trailing separators
    removed first; "." for the empty path and "/" for a path of
    separators only.  The scans run from the end of the path, here over
    the reversed bytes. *)
Definition Base (path : string) : string :=
  if path =? "" then "."
  else
    let stripped := dropWhile IsPathSeparator (rev (list_ascii_of_string path)) in
    let last := takeWhile (fun c => negb (IsPathSeparator c)) stripped in
    match last with
    | [] => "/"
    | _ => string_of_list_ascii (rev last)
    end.

(** The loop of [filepath.Ext]:
    [for i := len(path)-1; i >= 0 && !IsPathSeparator(path[i]); i--]
    returning [path[i:]] at the first '.' met.  [r] holds [path[0..i]]
    reversed and [suffix] is [path[i+1:]]. *)
Fixpoint Ext_loop (r : list ascii) (suffix : string) : string :=
  match r with
  | c :: r' =>
      if IsPathSeparator c then ""
      else if isDot c then String c suffix
      else Ext_loop r' (String c suffix)
  | [] => ""
  end.

Definition Ext (path : string) : string :=
  Ext_loop (rev (list_ascii_of_string path)) "".

(** *** [regexp]: the one pattern of the program, [rxDirective], which
    is [^<<] then a group of [.] repeated (greedy), then [>>\s*$].

    [\s] is the class [\t\n\f\r ]; [.] matches every character but '\n'
    (an invalid UTF-8 byte counts as one character), and neither '<', '>'
    nor a [\s] byte occurs inside a multi-byte rune, so that matching is
    bytewise. *)
Definition isRegexpSpace (c : ascii) : bool :=
  let n := nat_of_ascii c in
  ((n =? 9) || (n =? 10) || (n =? 12) || (n =? 13) || (n =? 32))%nat.

Fixpoint allRegexpSpace (s : string) : bool :=
  match s with
  | String c s' => isRegexpSpace c && allRegexpSpace s'
  | EmptyString => true
  end.

(** [>>\s*$] at the head of [s]. *)
Definition closes (s : string) : bool :=
  match s with
  | String c1 (String c2 s') =>
      Ascii.eqb c1 ">" && Ascii.eqb c2 ">" && allRegexpSpace s'
  | _ => false
  end.

(** The group and [>>\s*$] at the head of [s]: the group captured.  Go's matcher
    returns the match a backtracking search finds first, and the star is
    greedy: it first tries to take one more character. *)
Fixpoint capture (s : string) : option string :=
  match s with
  | String c s' =>
      match (if Ascii.eqb c nl then None else capture s') with
      | Some group => Some (String c group)
      | None => if closes s then Some "" else None
      end
  | EmptyString => None
  end.

(** [rxDirective.FindStringSubmatch(s)]: [None] for [nil], and
    [matches[1]] otherwise. *)
Definition FindStringSubmatch_rxDirective (s : string) : option string :=
  match s with
  | String c1 (String c2 s') =>
      if Ascii.eqb c1 "<" && Ascii.eqb c2 "<" then capture s' else None
  | _ => None
  end.

(** *** [bufio.Reader.ReadString('\n')] called until it reports an error:
    the strings returned, each ending in '\n' but the last, which is
    what was left at [io.EOF] (the empty string after a final '\n'). *)
Fixpoint readLines (contents : string) : list string :=
  match contents with
  | EmptyString => [""]
  | String c rest =>
      if Ascii.eqb c nl then String c "" :: readLines rest
      else match readLines rest with
           | l :: ls => String c l :: ls
           | [] => [String c ""]
           end
  end.

End Go.

(** ** [src/mdweb.go]: the classifier over package-level variables *)

Module Line.
Record t : Set := mk
  { Code : string; CodeTarget : string; Text : string; TextTarget : string }.
End Line.

Inductive lineType : Set := Code | Boilerplate | Example | Text.

Definition tab : string := String Go.tab "".
Definition nl : string := String Go.nl "".

(** Removes a single extension from the filename. *)
Definition removeExtension (filename : string) : string :=
  let filename := Go.Base filename in
  let ext := Go.Ext filename in
  substring 0 (String.length filename - String.length ext) filename.

(** The loop [for f1 != f2 { f1, f2 = f2, removeExtension(f2) }; return f2]:
    one unit of fuel for each execution of the body. *)
Fixpoint removeExtensions_loop (fuel : nat) (f1 f2 : string) : option string :=
  if f1 =? f2 then Some f2
  else match fuel with
       | 0 => None
       | S fuel' => removeExtensions_loop fuel' f2 (removeExtension f2)
       end.

Definition removeExtensions_fuel (fuel : nat) (filename : string) : option string :=
  removeExtensions_loop fuel filename (removeExtension filename).

(** Removes all extensions from the filename.  The body of the loop runs at
    most [length filename] times ([removeExtensions_loop_terminates] below). *)
Definition removeExtensions (filename : string) : string :=
  match removeExtensions_fuel (String.length filename) filename with
  | Some f2 => f2
  | None => filename
  end.

Definition unindent (line : string) : string * bool :=
  if Go.HasPrefix line tab then (Go.slice_from 1 line, true)
  else if Go.HasPrefix line "    " then (Go.slice_from 4 line, true)
  else (line, false).

Definition parseDirective (line : string) : string * bool :=
  let '(line, isIndented) := unindent line in
  if negb isIndented then ("", false)
  else match Go.FindStringSubmatch_rxDirective line with
       | None => ("", false)
       | Some group => (Go.TrimSpace group, true)
       end.

(** The package-level variables [state], [defaultCodeOutput],
    [defaultTextOutput] and [currentTarget]. *)
Record Globals : Set := mkGlobals
  { state : lineType;
    defaultCodeOutput : string;
    defaultTextOutput : string;
    currentTarget : string }.

Definition set_state (s : lineType) (g : Globals) : Globals :=
  mkGlobals s (defaultCodeOutput g) (defaultTextOutput g) (currentTarget g).

Definition set_currentTarget (t : string) (g : Globals) : Globals :=
  mkGlobals (state g) (defaultCodeOutput g) (defaultTextOutput g) t.

(** [var state = Text]; the strings start empty. *)
Definition initial : Globals := mkGlobals Text "" "" "".

Definition processDirective (directive : string) (g : Globals) : Globals :=
  if directive =? "!--" then set_state Example g
  else if directive =? "#--" then set_state Boilerplate g
  else
    let g := set_state Code g in
    if directive =? "" then set_currentTarget (defaultCodeOutput g) g
    else set_currentTarget directive g.

(** The list is what the call sends on the channel [lines]. *)
Definition processLine (line : string) (g : Globals) : Globals * list Line.t :=
  let '(directive, isDirective) := parseDirective line in
  if isDirective then (processDirective directive g, [])
  else
    let '(codeLine, isCode) := unindent line in
    let isBlank := Go.TrimSpace line =? "" in
    match state g with
    | Code =>
        if isCode || isBlank
        then (g, [Line.mk codeLine (currentTarget g) line (defaultTextOutput g)])
        else (set_state Text g, [Line.mk "" "" line (defaultTextOutput g)])
    | Boilerplate =>
        if isCode || isBlank
        then (g, [Line.mk codeLine (currentTarget g) "" ""])
        else (set_state Text g, [Line.mk "" "" line (defaultTextOutput g)])
    | Example =>
        if isCode || isBlank
        then (g, [Line.mk "" "" line (defaultTextOutput g)])
        else (set_state Text g, [Line.mk "" "" line (defaultTextOutput g)])
    | Text =>
        if isCode
        then (set_state Code g, [Line.mk codeLine (currentTarget g) line (defaultTextOutput g)])
        else (g, [Line.mk "" "" line (defaultTextOutput g)])
    end.

(** The reader loop of [ProcessFile]: [processLine] on each line read, the
    records in the order they are sent. *)
Fixpoint processLines (lines : list string) (g : Globals) : Globals * list Line.t :=
  match lines with
  | [] => (g, [])
  | line :: rest =>
      let '(g1, out1) := processLine line g in
      let '(g2, out2) := processLines rest g1 in
      (g2, (out1 ++ out2)%list)
  end.

(** The three assignments that open [ProcessFile]; [state] is not assigned. *)
Definition ProcessFile_init (filename : string) (g : Globals) : Globals :=
  mkGlobals (state g) (removeExtension filename)
            (removeExtensions filename ++ ".md") (removeExtension filename).

(** [input] is what [os.Open(filename)] gives: the contents of the file, or
    [None] when it cannot be opened, in which case the error is returned
    and nothing is sent. *)
Definition ProcessFile (filename : string) (input : option string) (g : Globals)
  : Globals * option (list Line.t) :=
  let g := ProcessFile_init filename g in
  match input with
  | None => (g, None)
  | Some contents =>
      let '(g', out) := processLines (Go.readLines contents) g in (g', Some out)
  end.

(** What [ProcessFiles] prints to the documentation file when [writeText]
    is set: [line.Text] of each record with [line.TextTarget != ""]. *)
Fixpoint textStream (records : list Line.t) : string :=
  match records with
  | [] => ""
  | r :: rest =>
      if Line.TextTarget r =? "" then textStream rest
      else Line.Text r ++ textStream rest
  end.

Definition isDirective (line : string) : bool := snd (parseDirective line).
Definition isCode (line : string) : bool := snd (unindent line).
Definition isBlank (line : string) : bool := Go.TrimSpace line =? "".


(** ** [src/unnamed/part_001]: the classifier as state functions

    [type State func(data StateData, inputLine string) BoundState] has the
    four inhabitants [stateCode], [stateBoilerplate], [stateExample] and
    [stateText]; a [BoundState] is always a closure built by [partialState],
    which is represented by the two values it captures.  The records sent on
    [data.Output] are returned. *)
Module Closures.

Record StateData : Set := mkStateData
  { DefaultCodeOutput : string;
    DefaultTextOutput : string;
    CurrentTarget : string }.

Inductive State : Set := stateCode | stateBoilerplate | stateExample | stateText.

Inductive BoundState : Set := partialState (s : State) (data : StateData).

Definition set_CurrentTarget (t : string) (data : StateData) : StateData :=
  mkStateData (DefaultCodeOutput data) (DefaultTextOutput data) t.

Definition processDirective (data : StateData) (directive : string) : BoundState :=
  if directive =? "!--" then partialState stateExample data
  else if directive =? "#--" then partialState stateBoilerplate data
  else
    let data :=
      if directive =? "" then set_CurrentTarget (DefaultCodeOutput data) data
      else set_CurrentTarget directive data in
    partialState stateCode data.

(** [s(data, inputLine)] *)
Definition apply_State (s : State) (data : StateData) (inputLine : string)
  : BoundState * list Line.t :=
  let '(codeLine, isCode) := unindent inputLine in
  let isBlank := Go.TrimSpace inputLine =? "" in
  let both := Line.mk codeLine (CurrentTarget data) inputLine (DefaultTextOutput data) in
  let textOnly := Line.mk "" "" inputLine (DefaultTextOutput data) in
  match s with
  | stateCode =>
      if isCode || isBlank then (partialState stateCode data, [both])
      else (partialState stateText data, [textOnly])
  | stateBoilerplate =>
      if isCode || isBlank
      then (partialState stateBoilerplate data,
            [Line.mk codeLine (CurrentTarget data) "" ""])
      else (partialState stateText data, [textOnly])
  | stateExample =>
      if isCode || isBlank then (partialState stateExample data, [textOnly])
      else (partialState stateText data, [textOnly])
  | stateText =>
      if isCode then (partialState stateCode data, [both])
      else (partialState stateText data, [textOnly])
  end.

(** Calling the closure [partialState(s, data)] on a line. *)
Definition call (b : BoundState) (inputLine : string) : BoundState * list Line.t :=
  let '(partialState s data) := b in
  let '(directive, isDirective) := parseDirective inputLine in
  if isDirective then (processDirective data directive, [])
  else apply_State s data inputLine.

(** [for scanner.Scan() { currentState = currentState(scanner.Text()) }]
    over the lines the scanner yields. *)
Fixpoint calls (currentState : BoundState) (lines : list string)
  : BoundState * list Line.t :=
  match lines with
  | [] => (currentState, [])
  | line :: rest =>
      let '(b1, out1) := call currentState line in
      let '(b2, out2) := calls b1 rest in
      (b2, (out1 ++ out2)%list)
  end.

(** The state [ProcessFile] starts from. *)
Definition ProcessFile_start (filename : string) : BoundState :=
  let defaultCodeOutput := removeExtension filename in
  partialState stateText
    (mkStateData defaultCodeOutput (removeExtensions filename ++ ".md")
                 defaultCodeOutput).

(** The package-level variables that hold the same classifier state. *)
Definition globals_of (b : BoundState) : Globals :=
  let '(partialState s data) := b in
  mkGlobals
    match s with
    | stateCode => Code
    | stateBoilerplate => Boilerplate
    | stateExample => Example
    | stateText => Text
    end
    (DefaultCodeOutput data) (DefaultTextOutput data) (CurrentTarget data).

End Closures.

(** ** Words of the specification *)

(** The input lines that are not directives: the document "with the
    directive lines removed". *)
Definition withoutDirectives (lines : list string) : list string :=
  filter (fun l => negb (isDirective l)) lines.

(** Each line with the mode in which it is processed. *)
Fixpoint modes (lines : list string) (g : Globals) : list (lineType * string) :=
  match lines with
  | [] => []
  | line :: rest => (state g, line) :: modes rest (fst (processLine line g))
  end.

(** A line that mode [m] sends to the code output only. *)
Definition boilerplateLine (m : lineType) (line : string) : bool :=
  match m with
  | Boilerplate => isCode line || isBlank line
  | _ => false
  end.

(** The lines that are neither directives nor boilerplate. *)
Definition documented (lines : list string) (g : Globals) : list string :=
  map snd
    (filter (fun ml => negb (isDirective (snd ml)) && negb (boilerplateLine (fst ml) (snd ml)))
            (modes lines g)).

Definition join (lines : list string) : string := fold_right append "" lines.

(** The pattern of [rxDirective] as a relation: [s] is "<<", a group without
    a newline, ">>" and white space up to its end. *)
Fixpoint noNewline (s : string) : bool :=
  match s with
  | String c s' => negb (Ascii.eqb c Go.nl) && noNewline s'
  | EmptyString => true
  end.

Definition rxDirective_matches (s group : string) : Prop :=
  exists ws, s = "<<" ++ group ++ ">>" ++ ws /\
             noNewline group = true /\ Go.allRegexpSpace ws = true.

(** The submatch of a greedy group: the longest one. *)
Definition rxDirective_submatch (s group : string) : Prop :=
  rxDirective_matches s group /\
  forall group', rxDirective_matches s group' ->
                 String.length group' <= String.length group.

Definition hasDot (s : string) : bool :=
  existsb Go.isDot (list_ascii_of_string s).

Definition hasSeparator (s : string) : bool :=
  existsb Go.IsPathSeparator (list_ascii_of_string s).

(** The name with its final extension removed: what is before its last dot. *)
Fixpoint finalExtensionRemoved (name : string) : string :=
  match name with
  | String c rest =>
      if hasDot rest then String c (finalExtensionRemoved rest)
      else if Go.isDot c then "" else name
  | EmptyString => ""
  end.

(** The name with all its extensions removed: what is before its first dot. *)
Fixpoint allExtensionsRemoved (name : string) : string :=
  match name with
  | String c rest => if Go.isDot c then "" else String c (allExtensionsRemoved rest)
  | EmptyString => ""
  end.

(** The switch of [processLine]: the record and the next mode of a line that
    is not a directive. *)
Definition classify (line : string) (g : Globals) : Globals * list Line.t :=
  let both :=
    Line.mk (fst (unindent line)) (currentTarget g) line (defaultTextOutput g) in
  let textOnly := Line.mk "" "" line (defaultTextOutput g) in
  match state g with
  | Code =>
      if isCode line || isBlank line then (g, [both])
      else (set_state Text g, [textOnly])
  | Boilerplate =>
      if isCode line || isBlank line
      then (g, [Line.mk (fst (unindent line)) (currentTarget g) "" ""])
      else (set_state Text g, [textOnly])
  | Example =>
      if isCode line || isBlank line then (g, [textOnly])
      else (set_state Text g, [textOnly])
  | Text =>
      if isCode line then (set_state Code g, [both]) else (g, [textOnly])
  end.

(** The document named [filename]: the name is the last element of the
    path. *)
Definition nameWithoutExtensions (filename : string) : string :=
  allExtensionsRemoved (Go.Base filename).

(** A line that switches to mode Boilerplate. *)
Definition isBoilerplateDirective (line : string) : bool :=
  isDirective line && (fst (parseDirective line) =? "#--").

(** ** The code output and the lines behind it *)

(** Each line with the variables as they are when it is processed. *)
Fixpoint states (lines : list string) (g : Globals) : list (Globals * string) :=
  match lines with
  | [] => []
  | line :: rest => (g, line) :: states rest (fst (processLine line g))
  end.

(** What [ProcessFiles] prints to the code file [target] when [writeCode] is
    set: [line.Code] of each record with [line.CodeTarget != ""] whose code
    target it is. *)
Fixpoint codeStream (target : string) (records : list Line.t) : string :=
  match records with
  | [] => ""
  | r :: rest =>
      if negb (Line.CodeTarget r =? "") && (Line.CodeTarget r =? target)
      then Line.Code r ++ codeStream target rest
      else codeStream target rest
  end.

(** A line that mode [m] sends with its code. *)
Definition codeLine (m : lineType) (line : string) : bool :=
  match m with
  | Code | Boilerplate => isCode line || isBlank line
  | Example => false
  | Text => isCode line
  end.

(** The lines of the document that are code for [target], without their
    indent. *)
Definition tangled (target : string) (lines : list string) (g : Globals)
  : list string :=
  map (fun gl => fst (unindent (snd gl)))
    (filter (fun gl => negb (isDirective (snd gl))
                       && codeLine (state (fst gl)) (snd gl)
                       && (currentTarget (fst gl) =? target))
            (states lines g)).

(** The payloads of the directives among [lines]. *)
Definition payloads (lines : list string) : list string :=
  map (fun l => fst (parseDirective l)) (filter isDirective lines).

(** The first byte of [s] is one-byte white space. *)
Definition startsWithSpace (s : string) : bool :=
  match s with
  | String c _ => Go.isAsciiSpace c
  | EmptyString => false
  end.

Definition endsWithSpace (s : string) : bool := startsWithSpace (Go.rev_string s).

(** A byte that white space is made of: one-byte white space, or a byte of a
    multi-byte rune. *)
Definition spaceByte (c : ascii) : bool :=
  Go.isAsciiSpace c || (128 <=? nat_of_ascii c)%nat.

Fixpoint spaceBytes (s : string) : bool :=
  match s with
  | String c s' => spaceByte c && spaceBytes s'
  | EmptyString => true
  end.

(** ** [ProcessFiles] of [src/mdweb.go]

    [outputFiles] maps the names of the output files created so far to their
    handles.  [Files.t] holds, for each name in the order of creation, what
    has been printed to its handle. *)
Module Files.

Definition t : Set := list (string * string).

Fixpoint mem (name : string) (outs : t) : bool :=
  match outs with
  | [] => false
  | (k, _) :: rest => (k =? name) || mem name rest
  end.

Fixpoint written (name : string) (outs : t) : string :=
  match outs with
  | [] => ""
  | (k, d) :: rest => if k =? name then d else written name rest
  end.


End Files.

Section ProcessFiles.

(** Whether [os.Create(name)] succeeds. *)
Variable Create : string -> bool.







End ProcessFiles.



(** ** [src/unnamed/part_000]: the classifier over flags

    The variant before [state]: the flags [isBoilerplate], [isExample] and
    [writingCode]; a record holds one text, the line without its indent for
    code. *)
Module Part000.

Record Line : Set := mkLine
  { CodeTarget : string; TextTarget : string; Text : string }.

Record Globals : Set := mkGlobals
  { currentTarget : string;
    isBoilerplate : bool;
    isExample : bool;
    targetCodeFile : string;
    targetTextFile : string;
    writingCode : bool }.

(** [var isBoilerplate = false], [var isExample = false],
    [var writingCode = false]; the strings start empty. *)
Definition initial : Globals := mkGlobals "" false false "" "" false.

(** [line[1:]] when [line[0] == '\t'], and [line[4:]] otherwise. *)
Definition strip (line : string) : string :=
  match line with
  | String c _ => if Ascii.eqb c Go.tab then Go.slice_from 1 line
                  else Go.slice_from 4 line
  | EmptyString => line
  end.

Definition processLine (line : string) (g : Globals) : Globals * list Line :=
  let g :=
    if currentTarget g =? ""
    then mkGlobals (targetCodeFile g) (isBoilerplate g) (isExample g)
           (targetCodeFile g) (targetTextFile g) (writingCode g)
    else g in
  if Go.HasPrefix line tab || Go.HasPrefix line "    " then
    if isExample g then (g, [mkLine "" (targetTextFile g) line])
    else
      let line := strip line in
      match Go.FindStringSubmatch_rxDirective line with
      | Some group =>
          let directive := Go.TrimSpace group in
          if directive =? "!--"
          then (mkGlobals (currentTarget g) (isBoilerplate g) true
                  (targetCodeFile g) (targetTextFile g) (writingCode g), [])
          else if directive =? "#--"
          then (mkGlobals (currentTarget g) true (isExample g)
                  (targetCodeFile g) (targetTextFile g) (writingCode g), [])
          else (mkGlobals directive (isBoilerplate g) (isExample g)
                  (targetCodeFile g) (targetTextFile g) (writingCode g), [])
      | None =>
          let g := mkGlobals (currentTarget g) (isBoilerplate g) (isExample g)
                     (targetCodeFile g) (targetTextFile g) true in
          if isBoilerplate g then (g, [mkLine (currentTarget g) "" line])
          else (g, [mkLine (currentTarget g) (targetTextFile g) line])
      end
  else if writingCode g && (Go.TrimSpace line =? "") then
    if isBoilerplate g then (g, [mkLine (currentTarget g) "" line])
    else (g, [mkLine (currentTarget g) (targetTextFile g) line])
  else
    (mkGlobals (currentTarget g) false false
       (targetCodeFile g) (targetTextFile g) false,
     [mkLine "" (targetTextFile g) line]).

Fixpoint processLines (lines : list string) (g : Globals) : Globals * list Line :=
  match lines with
  | [] => (g, [])
  | line :: rest =>
      let '(g1, out1) := processLine line g in
      let '(g2, out2) := processLines rest g1 in
      (g2, (out1 ++ out2)%list)
  end.

(** [ProcessFile] returns before it assigns anything when the file cannot
    be opened; otherwise it returns [targetTextFile] and the records. *)
Definition ProcessFile (filename : string) (input : option string) (g : Globals)
  : Globals * option (string * list Line) :=
  match input with
  | None => (g, None)
  | Some contents =>
      let g := mkGlobals (currentTarget g) (isBoilerplate g) (isExample g)
                 (removeExtension filename) (removeExtensions filename ++ ".md")
                 (writingCode g) in
      let '(g', out) := processLines (Go.readLines contents) g in
      (g', Some (targetTextFile g, out))
  end.



End Part000.

(** ** [src/mdweb.go], its first variant: one flag [isComment], no
    boilerplate, records that are code or text. *)
Module First.

Record Line : Set := mkLine { IsCode : bool; Target : string; Text : string }.

Record Globals : Set := mkGlobals
  { currentTarget : string;
    isComment : bool;
    targetCodeFile : string;
    targetTextFile : string;
    writingCode : bool }.

Definition initial : Globals := mkGlobals "" false "" "" false.

Definition processLine (line : string) (g : Globals) : Globals * list Line :=
  let g :=
    if currentTarget g =? ""
    then mkGlobals (targetCodeFile g) (isComment g)
           (targetCodeFile g) (targetTextFile g) (writingCode g)
    else g in
  if Go.HasPrefix line tab || Go.HasPrefix line "    " then
    if isComment g then (g, [mkLine false (targetTextFile g) line])
    else
      let line := Part000.strip line in
      match Go.FindStringSubmatch_rxDirective line with
      | Some group =>
          let directive := Go.TrimSpace group in
          if directive =? "!--"
          then (mkGlobals (currentTarget g) true
                  (targetCodeFile g) (targetTextFile g) (writingCode g), [])
          else (mkGlobals directive (isComment g)
                  (targetCodeFile g) (targetTextFile g) (writingCode g), [])
      | None =>
          let g := mkGlobals (currentTarget g) (isComment g)
                     (targetCodeFile g) (targetTextFile g) true in
          (g, [mkLine true (currentTarget g) line])
      end
  else if writingCode g && (Go.TrimSpace line =? "") then
    (g, [mkLine true (currentTarget g) line])
  else
    (mkGlobals (currentTarget g) false (targetCodeFile g) (targetTextFile g) false,
     [mkLine false (targetTextFile g) line]).

Fixpoint processLines (lines : list string) (g : Globals) : Globals * list Line :=
  match lines with
  | [] => (g, [])
  | line :: rest =>
      let '(g1, out1) := processLine line g in
      let '(g2, out2) := processLines rest g1 in
      (g2, (out1 ++ out2)%list)
  end.

(** The record of [part_000] for a record of this variant, for a document
    whose text file is [textFile]. *)
Definition toPart000 (textFile : string) (line : Line) : Part000.Line :=
  if IsCode line then Part000.mkLine (Target line) textFile (Text line)
  else Part000.mkLine "" (Target line) (Text line).

(** The variables of [part_000] that hold the same state. *)
Definition globalsPart000 (g : Globals) : Part000.Globals :=
  Part000.mkGlobals (currentTarget g) false (isComment g)
    (targetCodeFile g) (targetTextFile g) (writingCode g).

End First.

(** The code target [part_000] sends code to: [currentTarget], or
    [targetCodeFile] when it is empty. *)
Definition targetPart000 (g : Part000.Globals) : string :=
  if Part000.currentTarget g =? "" then Part000.targetCodeFile g
  else Part000.currentTarget g.

(** The record of [part_000] for a record of [mdweb.go]: its one text is the
    code of a record that has a code target, and the text otherwise. *)
Definition toPart000 (r : Line.t) : Part000.Line :=
  Part000.mkLine (Line.CodeTarget r) (Line.TextTarget r)
    (if Line.CodeTarget r =? "" then Line.Text r else Line.Code r).




(** ** [ProcessFile] and [ProcessFiles] of [src/unnamed/part_001]

    The lines come from a [bufio.Scanner] with its default split function,
    [bufio.ScanLines], and its default buffer. *)
Module Bufio.

(** [bufio.MaxScanTokenSize]: the buffer grows up to this size, and [Scan]
    stops with [ErrTooLong] when it is full of bytes without a newline. *)
Definition MaxScanTokenSize : nat := 64 * 1024.

Definition cr : ascii := "013"%char.

(** What stands between the newlines of [contents]; the last piece is what
    follows the last newline. *)
Fixpoint pieces (contents : string) : list string :=
  match contents with
  | EmptyString => [""]
  | String c rest =>
      if Ascii.eqb c Go.nl then "" :: pieces rest
      else match pieces rest with
           | p :: ps => String c p :: ps
           | [] => [String c ""]
           end
  end.

(** [dropCR]: the data without a final '\r'. *)
Definition dropCR (data : string) : string :=
  match Go.rev_string data with
  | String c r => if Ascii.eqb c cr then Go.rev_string r else data
  | EmptyString => data
  end.

Definition tooLong (piece : string) : bool :=
  (MaxScanTokenSize <=? String.length piece)%nat.

(** The tokens of successive calls of [Scan], and whether the scanner ends
    with [ErrTooLong].  At the end of the file what is left is a token when
    it is not empty. *)
Fixpoint tokens (ps : list string) : list string * bool :=
  match ps with
  | [] => ([], false)
  | p :: rest =>
      if tooLong p then ([], true)
      else match rest with
           | [] => ((if p =? "" then [] else [dropCR p]), false)
           | _ :: _ => let '(ts, err) := tokens rest in (dropCR p :: ts, err)
           end
  end.

Definition Scan (contents : string) : list string * bool :=
  tokens (pieces contents).

End Bufio.


Section ProcessFiles001.

Variable Create : string -> bool.

(** [getAbsTargetPath(source, targetPath)], which resolves a relative target
    against the directory of the source with [path/filepath] and the
    working directory; [None] when it panics. *)
Variable getAbsTargetPath : string -> string -> option string.







End ProcessFiles001.

(** The last byte of [s] is '\r'. *)
Definition endsWithCR (s : string) : bool :=
  match Go.rev_string s with
  | String c _ => Ascii.eqb c Bufio.cr
  | EmptyString => false
  end.

(** A line as [fmt.Fprintln] prints it. *)
Definition ln (line : string) : string := line ++ nl.

(** The pieces put back together, a newline between two of them. *)
Fixpoint unpieces (ps : list string) : string :=
  match ps with
  | [] => ""
  | p :: rest =>
      match rest with
      | [] => p
      | _ :: _ => p ++ nl ++ unpieces rest
      end
  end.



(** ** Documents used as examples *)

(** A document with a title, a target directive and a line of code. *)
Definition main_go_md : string :=
  "# Title" ++ nl ++ tab ++ "<<main.go>>" ++ nl ++ tab ++ "package main" ++ nl.

(** A document that opens with a boilerplate block. *)
Definition readme_md : string :=
  tab ++ "<<#-->>" ++ nl ++ tab ++ "package mdweb" ++ nl.

(** A document that is one line of code. *)
Definition foo_cpp_md : string := tab ++ "int x = 1;" ++ nl.

(** * Properties *)

(** ** The scenarios of the documentation, evaluated *)

(** "a file named foo.cpp.md will produce documentation at foo.md and code at
    foo.cpp" *)
Example names_of_foo_cpp_md :
  removeExtension "foo.cpp.md" = "foo.cpp" /\
  removeExtensions "foo.cpp.md" ++ ".md" = "foo.md" /\
  removeExtension "docs/foo.cpp.md" = "foo.cpp" /\
  removeExtensions ".bashrc" ++ ".md" = ".md".
Proof. repeat split; reflexivity. Qed.

Example directives_parsed :
  parseDirective (tab ++ "<<>>" ++ nl) = ("", true) /\
  parseDirective ("    << main.go >>  ") = ("main.go", true) /\
  parseDirective (tab ++ "<<a>> >>") = ("a>>", true) /\
  parseDirective ("     <<a>>") = ("", false) /\
  parseDirective ("<<a>>") = ("", false) /\
  parseDirective (tab ++ "<<a" ++ nl ++ ">>") = ("", false).
Proof. repeat split; reflexivity. Qed.

(** A title, a blank line, a line of code, a blank line and a line of text:
    the second blank line continues the code, the text ends it. *)
Example code_block_with_blank_line :
  Closures.calls (Closures.ProcessFile_start "foo.cpp.md")
    ["# Title"; ""; tab ++ "int x = 1;"; ""; "More text."]
  = (Closures.partialState Closures.stateText
       (Closures.mkStateData "foo.cpp" "foo.md" "foo.cpp"),
     [Line.mk "" "" "# Title" "foo.md";
      Line.mk "" "" "" "foo.md";
      Line.mk "int x = 1;" "foo.cpp" (tab ++ "int x = 1;") "foo.md";
      Line.mk "" "foo.cpp" "" "foo.md";
      Line.mk "" "" "More text." "foo.md"]).
Proof. reflexivity. Qed.

(** A boilerplate block goes to the code only, an example block to the text
    only, each up to the next line of text. *)
Example boilerplate_and_example_blocks :
  snd (Closures.calls (Closures.ProcessFile_start "foo.go.md")
         [tab ++ "<<#-->>"; tab ++ "package foo"; ""; tab ++ "import x";
          "Text."; tab ++ "<<!-->>"; "    foo()"; "Done."])
  = [Line.mk "package foo" "foo.go" "" "";
     Line.mk "" "foo.go" "" "";
     Line.mk "import x" "foo.go" "" "";
     Line.mk "" "" "Text." "foo.md";
     Line.mk "" "" "    foo()" "foo.md";
     Line.mk "" "" "Done." "foo.md"].
Proof. reflexivity. Qed.

(** The reader of [mdweb.go] keeps the newline of each line and passes the
    empty rest of the file as a last line. *)
Example lines_read :
  Go.readLines main_go_md
  = ["# Title" ++ nl; tab ++ "<<main.go>>" ++ nl; tab ++ "package main" ++ nl; ""].
Proof. reflexivity. Qed.

(** ** One step of the classifier *)

Lemma processLine_directive (line directive : string) (g : Globals) :
  parseDirective line = (directive, true) ->
  processLine line g = (processDirective directive g, []).
Proof. intros H. unfold processLine. rewrite H. reflexivity. Qed.

Lemma isDirective_false (line : string) :
  isDirective line = false -> exists d, parseDirective line = (d, false).
Proof.
  unfold isDirective. destruct (parseDirective line) as [d b]; simpl.
  intros ->. now exists d.
Qed.

Lemma isDirective_true (line : string) :
  isDirective line = true -> exists d, parseDirective line = (d, true).
Proof.
  unfold isDirective. destruct (parseDirective line) as [d b]; simpl.
  intros ->. now exists d.
Qed.

Lemma processLine_plain (line : string) (g : Globals) :
  isDirective line = false -> processLine line g = classify line g.
Proof.
  intros H. destruct (isDirective_false _ H) as [d Hd].
  unfold processLine, classify, isCode, isBlank. rewrite Hd.
  destruct (unindent line) as [codeLine c]. reflexivity.
Qed.

Lemma processLine_cases (line : string) (g : Globals) :
  (exists d, parseDirective line = (d, true) /\
             processLine line g = (processDirective d g, [])) \/
  (isDirective line = false /\ processLine line g = classify line g).
Proof.
  destruct (isDirective line) eqn:E.
  - left. destruct (isDirective_true _ E) as [d Hd]. exists d.
    split; [assumption | now apply processLine_directive].
  - right. split; [reflexivity | now apply processLine_plain].
Qed.

Ltac classify_cases g line :=
  unfold classify;
  destruct (state g) eqn:?; destruct (isCode line) eqn:?;
  destruct (isBlank line) eqn:?; simpl.

Ltac directive_cases d :=
  unfold processDirective;
  destruct (String.eqb_spec d "!--"); [| destruct (String.eqb_spec d "#--");
    [| destruct (String.eqb_spec d "")]]; simpl.

Lemma processLines_app (l1 l2 : list string) (g : Globals) :
  processLines (l1 ++ l2) g =
  (fst (processLines l2 (fst (processLines l1 g))),
   (snd (processLines l1 g) ++ snd (processLines l2 (fst (processLines l1 g))))%list).
Proof.
  revert g. induction l1 as [|l l1 IH]; intros g; simpl.
  - now destruct (processLines l2 g).
  - destruct (processLine l g) as [g1 o1]. rewrite IH.
    destruct (processLines l1 g1) as [g2 o2]; simpl.
    now rewrite app_assoc.
Qed.

Lemma processLines_cons (l : string) (ls : list string) (g : Globals) :
  processLines (l :: ls) g =
  (fst (processLines ls (fst (processLine l g))),
   (snd (processLine l g) ++ snd (processLines ls (fst (processLine l g))))%list).
Proof.
  simpl. destruct (processLine l g) as [g1 o1]; simpl.
  now destruct (processLines ls g1).
Qed.

Lemma processDirective_defaults (d : string) (g : Globals) :
  defaultCodeOutput (processDirective d g) = defaultCodeOutput g /\
  defaultTextOutput (processDirective d g) = defaultTextOutput g.
Proof. directive_cases d; auto. Qed.

Lemma processLine_defaults (line : string) (g : Globals) :
  defaultCodeOutput (fst (processLine line g)) = defaultCodeOutput g /\
  defaultTextOutput (fst (processLine line g)) = defaultTextOutput g.
Proof.
  destruct (processLine_cases line g) as [[d [_ ->]] | [_ ->]]; simpl.
  - apply processDirective_defaults.
  - classify_cases g line; auto.
Qed.

Lemma processLines_defaults (lines : list string) (g : Globals) :
  defaultCodeOutput (fst (processLines lines g)) = defaultCodeOutput g /\
  defaultTextOutput (fst (processLines lines g)) = defaultTextOutput g.
Proof.
  revert g. induction lines as [|l ls IH]; intros g; [now split|].
  rewrite processLines_cons; simpl.
  destruct (IH (fst (processLine l g))) as [-> ->].
  apply processLine_defaults.
Qed.

(** ** Directives produce no record, other lines one *)

Lemma processLine_length (line : string) (g : Globals) :
  List.length (snd (processLine line g)) = if isDirective line then 0 else 1.
Proof.
  destruct (processLine_cases line g) as [[d [Hd ->]] | [Hn ->]].
  - unfold isDirective. now rewrite Hd.
  - rewrite Hn. classify_cases g line; reflexivity.
Qed.

Lemma processLines_length (lines : list string) (g : Globals) :
  List.length (snd (processLines lines g)) + List.length (filter isDirective lines)
  = List.length lines.
Proof.
  revert g. induction lines as [|l ls IH]; intros g; [reflexivity|].
  rewrite processLines_cons; simpl snd. rewrite length_app, processLine_length.
  specialize (IH (fst (processLine l g))). simpl filter.
  destruct (isDirective l); simpl; lia.
Qed.

(** C2: a directive line sends no record and every other line sends exactly
    one, so that the records of a document are as many as its lines minus
    its directive lines; [ProcessFile] on a file that opens returns such a
    sequence for the lines it reads. *)
Theorem C2_one_record_per_plain_line :
  (forall line g, isDirective line = true -> snd (processLine line g) = []) /\
  (forall line g, isDirective line = false ->
                  exists r, snd (processLine line g) = [r]) /\
  (forall lines g,
      List.length (snd (processLines lines g))
      = List.length lines - List.length (filter isDirective lines)) /\
  (forall filename contents g,
      exists records,
        snd (ProcessFile filename (Some contents) g) = Some records /\
        List.length records
        = List.length (Go.readLines contents)
          - List.length (filter isDirective (Go.readLines contents))).
Proof.
  split; [|split; [|split]].
  - intros line g H. destruct (isDirective_true _ H) as [d Hd].
    now rewrite (processLine_directive _ _ _ Hd).
  - intros line g H. rewrite (processLine_plain _ _ H).
    classify_cases g line; eauto.
  - intros lines g. pose proof (processLines_length lines g). lia.
  - intros filename contents g. unfold ProcessFile.
    pose proof (processLines_length (Go.readLines contents)
                  (ProcessFile_init filename g)) as H.
    destruct (processLines (Go.readLines contents) (ProcessFile_init filename g))
      as [g' out]; simpl in *.
    exists out. split; [reflexivity | lia].
Qed.

(** ** Resolving a directive *)

Lemma processLines_last (lines : list string) (line : string) (g : Globals) :
  fst (processLines (lines ++ [line]) g)
  = fst (processLine line (fst (processLines lines g))).
Proof.
  rewrite processLines_app; simpl.
  destruct (processLine line (fst (processLines lines g))); reflexivity.
Qed.

(** C3: "!--" gives mode Example, "#--" mode Boilerplate, the empty payload
    mode Code with [currentTarget] back to [defaultCodeOutput], any other
    payload mode Code with [currentTarget] the payload; after a target
    directive and any lines, an empty directive leaves [currentTarget] at the
    default of the document; a payload other than "!--" and "#--" gives mode
    Code whatever the mode was. *)
Theorem C3_processDirective :
  (forall g, processDirective "!--" g = set_state Example g) /\
  (forall g, processDirective "#--" g = set_state Boilerplate g) /\
  (forall g, processDirective "" g
             = mkGlobals Code (defaultCodeOutput g) (defaultTextOutput g)
                         (defaultCodeOutput g)) /\
  (forall g d, d <> "!--" -> d <> "#--" -> d <> "" ->
               processDirective d g
               = mkGlobals Code (defaultCodeOutput g) (defaultTextOutput g) d) /\
  (forall g before between custom reset d,
      parseDirective custom = (d, true) ->
      d <> "!--" -> d <> "#--" -> d <> "" ->
      parseDirective reset = ("", true) ->
      currentTarget (fst (processLines (before ++ [custom]) g)) = d /\
      currentTarget (fst (processLines ((before ++ custom :: between) ++ [reset]) g))
      = defaultCodeOutput g) /\
  (forall g d, d <> "!--" -> d <> "#--" -> state (processDirective d g) = Code).
Proof.
  split; [reflexivity|]. split; [reflexivity|]. split; [reflexivity|].
  split; [|split].
  - intros g d H1 H2 H3. directive_cases d; try contradiction. reflexivity.
  - intros g before between custom reset d Hc H1 H2 H3 Hr. split.
    + rewrite processLines_last, (processLine_directive _ _ _ Hc).
      directive_cases d; try contradiction. reflexivity.
    + rewrite processLines_last, (processLine_directive _ _ _ Hr). simpl.
      apply processLines_defaults.
  - intros g d H1 H2. directive_cases d; try contradiction; reflexivity.
Qed.

(** ** Blank lines continue a run *)

(** C5: a blank line that is not a directive, processed in mode Code,
    Boilerplate or Example, leaves the mode as it is and is sent like the
    lines of the run: with its code to [currentTarget] in mode Code, to the
    code output only in mode Boilerplate, to the text output only in mode
    Example. *)
Theorem C5_blank_line_continues (line : string) (g : Globals) :
  isBlank line = true ->
  isDirective line = false ->
  state g <> Text ->
  fst (processLine line g) = g /\
  snd (processLine line g) =
    match state g with
    | Code =>
        [Line.mk (fst (unindent line)) (currentTarget g) line (defaultTextOutput g)]
    | Boilerplate => [Line.mk (fst (unindent line)) (currentTarget g) "" ""]
    | _ => [Line.mk "" "" line (defaultTextOutput g)]
    end.
Proof.
  intros Hb Hd Hs. rewrite (processLine_plain _ _ Hd).
  unfold classify. rewrite Hb, orb_true_r.
  destruct (state g); try contradiction; split; reflexivity.
Qed.

(** ** What a step may change *)

(** C7: a line that is not a directive, and the directives "!--" and "#--",
    leave [currentTarget] as it is; a step that changes [currentTarget] is
    the resolution of a directive whose payload is neither "!--" nor "#--";
    [defaultCodeOutput] and [defaultTextOutput] are the same after any lines. *)
Theorem C7_frame :
  (forall line g, isDirective line = false ->
                  currentTarget (fst (processLine line g)) = currentTarget g) /\
  (forall g, currentTarget (processDirective "!--" g) = currentTarget g) /\
  (forall g, currentTarget (processDirective "#--" g) = currentTarget g) /\
  (forall line g,
      currentTarget (fst (processLine line g)) <> currentTarget g ->
      exists d, parseDirective line = (d, true) /\ d <> "!--" /\ d <> "#--" /\
                fst (processLine line g) = processDirective d g) /\
  (forall lines g,
      defaultCodeOutput (fst (processLines lines g)) = defaultCodeOutput g /\
      defaultTextOutput (fst (processLines lines g)) = defaultTextOutput g).
Proof.
  split; [|split; [|split; [|split]]].
  - intros line g H. rewrite (processLine_plain _ _ H).
    classify_cases g line; reflexivity.
  - reflexivity.
  - reflexivity.
  - intros line g H.
    destruct (processLine_cases line g) as [[d [Hd E]] | [Hn E]]; rewrite E in H.
    + exists d. rewrite E. simpl in *.
      repeat split; trivial; intros ->; now apply H.
    + exfalso. apply H. classify_cases g line; reflexivity.
  - apply processLines_defaults.
Qed.

(** ** A plain text line ends a run *)


(** C8: after a line that is not indented, not blank and not a directive the
    mode is Text, whatever it was. *)
Theorem C8_text_line_resets_mode (line : string) (g : Globals) :
  isCode line = false ->
  isBlank line = false ->
  isDirective line = false ->
  state (fst (processLine line g)) = Text.
Proof.
  intros Hc Hb Hd. rewrite (processLine_plain _ _ Hd).
  unfold classify. rewrite Hc, Hb. now destruct (state g) eqn:E.
Qed.

(** ** The text output *)

Lemma append_assoc (a b c : string) : (a ++ b) ++ c = a ++ (b ++ c).
Proof. induction a; simpl; congruence. Qed.

Lemma append_empty_r (s : string) : s ++ "" = s.
Proof. induction s; simpl; congruence. Qed.

Lemma textStream_app (a b : list Line.t) :
  textStream (a ++ b) = textStream a ++ textStream b.
Proof.
  induction a as [|r a IH]; simpl; [reflexivity|].
  destruct (Line.TextTarget r =? ""); [assumption|].
  now rewrite IH, append_assoc.
Qed.

Lemma textStream_processLine (line : string) (g : Globals) :
  defaultTextOutput g <> "" ->
  textStream (snd (processLine line g))
  = if negb (isDirective line) && negb (boilerplateLine (state g) line)
    then line else "".
Proof.
  intros Ht. apply String.eqb_neq in Ht.
  destruct (processLine_cases line g) as [[d [Hd ->]] | [Hn ->]].
  - unfold isDirective. rewrite Hd. reflexivity.
  - rewrite Hn. unfold classify, boilerplateLine.
    destruct (state g); destruct (isCode line || isBlank line);
      try destruct (isCode line); simpl; rewrite ?Ht, ?append_empty_r; reflexivity.
Qed.

Lemma textStream_processLines (lines : list string) (g : Globals) :
  defaultTextOutput g <> "" ->
  textStream (snd (processLines lines g)) = join (documented lines g).
Proof.
  revert g. induction lines as [|l ls IH]; intros g Ht; [reflexivity|].
  rewrite processLines_cons; simpl snd.
  rewrite textStream_app, textStream_processLine by assumption.
  rewrite IH by (now destruct (processLine_defaults l g) as [_ ->]).
  unfold documented; simpl.
  destruct (negb (isDirective l) && negb (boilerplateLine (state g) l)); reflexivity.
Qed.

Lemma join_readLines (contents : string) : join (Go.readLines contents) = contents.
Proof.
  induction contents as [|c rest IH]; [reflexivity|]. simpl.
  destruct (Ascii.eqb c Go.nl); simpl; [now rewrite IH|].
  destruct (Go.readLines rest) as [|l ls]; simpl in *; [now rewrite <- IH|].
  now rewrite IH.
Qed.

Lemma ProcessFile_init_text (filename : string) (g : Globals) :
  defaultTextOutput (ProcessFile_init filename g) <> "".
Proof. simpl. destruct (removeExtensions filename); discriminate. Qed.

Lemma processLine_not_Boilerplate (line : string) (g : Globals) :
  state g <> Boilerplate ->
  isBoilerplateDirective line = false ->
  state (fst (processLine line g)) <> Boilerplate.
Proof.
  intros Hs Hb.
  destruct (processLine_cases line g) as [[d [Hd ->]] | [Hn ->]]; simpl.
  - unfold isBoilerplateDirective, isDirective in Hb. rewrite Hd in Hb. simpl in Hb.
    directive_cases d; discriminate.
  - classify_cases g line; congruence.
Qed.

Lemma documented_without_Boilerplate (lines : list string) (g : Globals) :
  state g <> Boilerplate ->
  forallb (fun l => negb (isBoilerplateDirective l)) lines = true ->
  documented lines g = withoutDirectives lines.
Proof.
  revert g. induction lines as [|l ls IH]; intros g Hs Hall; [reflexivity|].
  simpl in Hall. apply andb_true_iff in Hall as [Hl Hall].
  apply negb_true_iff in Hl.
  unfold documented, withoutDirectives in *. simpl.
  assert (boilerplateLine (state g) l = false) as ->
      by (destruct (state g); try reflexivity; contradiction).
  rewrite andb_true_r.
  specialize (IH (fst (processLine l g))
                (processLine_not_Boilerplate _ _ Hs Hl) Hall).
  destruct (negb (isDirective l)); simpl; now rewrite IH.
Qed.

(** C1, as the code has it: the [Text] fields of the records with a non-empty
    [TextTarget], concatenated in the order of emission, are the document
    (the lines read, whose concatenation is the contents of the file) without
    its directive lines and without its boilerplate lines, the indented or
    blank lines processed in mode Boilerplate; where the mode is never
    Boilerplate, without its directive lines only. *)
Theorem C1_text_roundtrip (filename contents : string) (g : Globals) :
  join (Go.readLines contents) = contents /\
  exists records,
    snd (ProcessFile filename (Some contents) g) = Some records /\
    textStream records
    = join (documented (Go.readLines contents) (ProcessFile_init filename g)) /\
    (state g <> Boilerplate ->
     forallb (fun l => negb (isBoilerplateDirective l)) (Go.readLines contents) = true ->
     textStream records = join (withoutDirectives (Go.readLines contents))).
Proof.
  split; [apply join_readLines|].
  unfold ProcessFile.
  pose proof (textStream_processLines (Go.readLines contents)
                (ProcessFile_init filename g) (ProcessFile_init_text filename g)) as H.
  destruct (processLines (Go.readLines contents) (ProcessFile_init filename g))
    as [g' out]; simpl in H.
  exists out. split; [reflexivity|]. split; [exact H|].
  intros Hs Hall. rewrite H. f_equal.
  now apply documented_without_Boilerplate.
Qed.

(** The claim C1 as the specification words it fails on a document with a
    boilerplate line: the line is not a directive and is not in the text. *)
Lemma C1_counterexample :
  exists records,
    snd (ProcessFile "README.md" (Some readme_md) initial) = Some records /\
    textStream records = "" /\
    join (withoutDirectives (Go.readLines readme_md)) = tab ++ "package mdweb" ++ nl /\
    textStream records <> join (withoutDirectives (Go.readLines readme_md)).
Proof.
  eexists. split; [vm_compute; reflexivity|].
  split; [reflexivity|]. split; [reflexivity|]. vm_compute. discriminate.
Qed.

Lemma C1_text_roundtrip_witness :
  exists records,
    snd (ProcessFile "main.go.md" (Some main_go_md) initial) = Some records /\
    textStream records = "# Title" ++ nl ++ tab ++ "package main" ++ nl.
Proof.
  destruct (C1_text_roundtrip "main.go.md" main_go_md initial)
    as [_ [records [H1 [_ H3]]]].
  exists records. split; [exact H1|].
  rewrite H3; [reflexivity | discriminate | reflexivity].
Defined.

(** ** The targets of a record *)






(** A document whose name is an extension only has the empty string as its
    default code output: its code lines are sent without a code target. *)
Lemma empty_default_code_target :
  snd (ProcessFile ".md" (Some foo_cpp_md) initial)
  = Some [Line.mk ("int x = 1;" ++ nl) "" foo_cpp_md ".md";
          Line.mk "" "" "" ".md"].
Proof. reflexivity. Qed.


(** ** The directive parser *)

Section Regexp.

Import Go.

Lemma capture_eq (c : ascii) (s : string) :
  capture (String c s)
  = match (if Ascii.eqb c Go.nl then None else capture s) with
    | Some group => Some (String c group)
    | None => if closes (String c s) then Some "" else None
    end.
Proof. reflexivity. Qed.

Lemma closes_spec (s : string) :
  closes s = true <-> exists ws, s = ">>" ++ ws /\ allRegexpSpace ws = true.
Proof.
  split.
  - destruct s as [|c1 [|c2 s]]; simpl; try discriminate.
    intros H. apply andb_true_iff in H as [H Hw].
    apply andb_true_iff in H as [H1 H2].
    apply Ascii.eqb_eq in H1, H2. subst. now exists s.
  - intros [ws [-> Hw]]. exact Hw.
Qed.

Lemma capture_sound (s group : string) :
  capture s = Some group ->
  exists ws, s = group ++ ">>" ++ ws /\
             noNewline group = true /\ allRegexpSpace ws = true.
Proof.
  revert group. induction s as [|c s IH]; intros group; [discriminate|].
  rewrite capture_eq.
  assert (Hclose : (if closes (String c s) then Some "" else None) = Some group ->
                   exists ws, String c s = group ++ ">>" ++ ws /\
                              noNewline group = true /\ allRegexpSpace ws = true).
  { destruct (closes (String c s)) eqn:Hc; [|discriminate].
    intros [= <-]. apply closes_spec in Hc as [ws [-> Hw]]. now exists ws. }
  destruct (Ascii.eqb c Go.nl) eqn:Hnl; [exact Hclose|].
  destruct (capture s) as [g0|]; [|exact Hclose].
  intros [= <-]. destruct (IH g0 eq_refl) as [ws [-> [Hg Hw]]].
  exists ws. simpl. now rewrite Hnl, Hg.
Qed.

Lemma capture_complete (group ws : string) :
  noNewline group = true -> allRegexpSpace ws = true ->
  capture (group ++ ">>" ++ ws) <> None.
Proof.
  intros Hg Hw. induction group as [|c g IH].
  - change ("" ++ ">>" ++ ws) with (String ">" (String ">" ws)).
    rewrite capture_eq.
    destruct (if Ascii.eqb ">" Go.nl then None else capture (String ">" ws));
      [discriminate|].
    assert (closes (String ">" (String ">" ws)) = true) as ->
        by (apply closes_spec; now exists ws).
    discriminate.
  - simpl in Hg. apply andb_true_iff in Hg as [Hc Hg].
    apply negb_true_iff in Hc.
    change (String c g ++ ">>" ++ ws) with (String c (g ++ ">>" ++ ws)).
    rewrite capture_eq, Hc.
    destruct (capture (g ++ ">>" ++ ws)); [discriminate|].
    now specialize (IH Hg).
Qed.

Lemma capture_longest (s group group' ws' : string) :
  capture s = Some group ->
  s = group' ++ ">>" ++ ws' ->
  noNewline group' = true -> allRegexpSpace ws' = true ->
  String.length group' <= String.length group.
Proof.
  revert group group'. induction s as [|c s IH]; intros group group';
    [discriminate|].
  rewrite capture_eq. intros Hcap Hs Hg Hw.
  destruct group' as [|c' g']; [simpl; lia|].
  assert (Hs' : String c s = String c' (g' ++ ">>" ++ ws')) by exact Hs.
  clear Hs. injection Hs' as <- ->.
  simpl in Hg. apply andb_true_iff in Hg as [Hc Hg].
  apply negb_true_iff in Hc. rewrite Hc in Hcap.
  match type of Hcap with
  | context [capture ?t] => destruct (capture t) as [g0|] eqn:E
  end.
  - injection Hcap as <-. simpl.
    specialize (IH g0 g' eq_refl eq_refl Hg Hw). lia.
  - exact (False_ind _ (capture_complete _ _ Hg Hw E)).
Qed.

Lemma FindStringSubmatch_sound (s group : string) :
  FindStringSubmatch_rxDirective s = Some group -> rxDirective_submatch s group.
Proof.
  destruct s as [|c1 [|c2 s]]; simpl; try discriminate.
  destruct (Ascii.eqb_spec c1 "<"); [|discriminate].
  destruct (Ascii.eqb_spec c2 "<"); [|discriminate]. subst. simpl.
  intros H. split.
  - destruct (capture_sound _ _ H) as [ws [-> [Hg Hw]]]. now exists ws.
  - intros group' [ws' [Hs [Hg Hw]]]. injection Hs as Hs.
    exact (capture_longest _ _ _ _ H Hs Hg Hw).
Qed.

Lemma FindStringSubmatch_complete (s group : string) :
  rxDirective_matches s group -> FindStringSubmatch_rxDirective s <> None.
Proof.
  intros [ws [-> [Hg Hw]]]. simpl. now apply capture_complete.
Qed.

Lemma append_same_length (a b x y : string) :
  a ++ x = b ++ y -> String.length a = String.length b -> a = b.
Proof.
  revert b. induction a as [|c a IH]; intros [|c' b]; simpl; try discriminate;
    [reflexivity|].
  intros [= -> H] [= L]. f_equal. now apply IH.
Qed.

Lemma rxDirective_submatch_unique (s g1 g2 : string) :
  rxDirective_submatch s g1 -> rxDirective_submatch s g2 -> g1 = g2.
Proof.
  intros [M1 L1] [M2 L2].
  pose proof (L1 _ M2). pose proof (L2 _ M1).
  destruct M1 as [w1 [E1 _]], M2 as [w2 [E2 _]].
  rewrite E1 in E2. injection E2 as E2.
  apply (append_same_length _ _ _ _ E2). lia.
Qed.

End Regexp.

Lemma HasPrefix_spec (s pre : string) :
  Go.HasPrefix s pre = true -> s = pre ++ Go.slice_from (String.length pre) s.
Proof.
  revert s. induction pre as [|c pre IH]; intros s; simpl; [reflexivity|].
  destruct s as [|c' s]; [discriminate|].
  intros H. apply andb_true_iff in H as [Hc H].
  apply Ascii.eqb_eq in Hc. subst. f_equal. now apply IH.
Qed.

Lemma unindent_cases (line : string) :
  (exists rest, (line = tab ++ rest \/ line = "    " ++ rest) /\
                unindent line = (rest, true)) \/
  ((forall rest, line <> tab ++ rest) /\ (forall rest, line <> "    " ++ rest) /\
   unindent line = (line, false)).
Proof.
  unfold unindent.
  destruct (Go.HasPrefix line tab) eqn:H1.
  - left. exists (Go.slice_from 1 line). split; [|reflexivity].
    left. exact (HasPrefix_spec _ _ H1).
  - destruct (Go.HasPrefix line "    ") eqn:H2.
    + left. exists (Go.slice_from 4 line). split; [|reflexivity].
      right. exact (HasPrefix_spec _ _ H2).
    + right. repeat split; intros rest ->; discriminate.
Qed.

Lemma parseDirective_indented (line rest : string) :
  line = tab ++ rest \/ line = "    " ++ rest ->
  parseDirective line
  = match Go.FindStringSubmatch_rxDirective rest with
    | None => ("", false)
    | Some group => (Go.TrimSpace group, true)
    end.
Proof. intros [-> | ->]; reflexivity. Qed.

(** C4: a line without a leading tab and without four leading spaces is not
    a directive (nor is one with five leading spaces); with that indent
    stripped, a line whose rest does not match the pattern is not a
    directive, and for a line whose rest matches the payload is the group
    captured, trimmed; a payload returned comes from such a line.  The
    parser is a function of the line alone. *)
Theorem C4_parseDirective (line : string) :
  ((forall rest, line <> tab ++ rest) ->
   (forall rest, line <> "    " ++ rest) ->
   parseDirective line = ("", false)) /\
  (forall rest, line = "     " ++ rest -> parseDirective line = ("", false)) /\
  (forall rest,
      line = tab ++ rest \/ line = "    " ++ rest ->
      ((forall group, ~ rxDirective_matches rest group) ->
       parseDirective line = ("", false)) /\
      (forall group, rxDirective_submatch rest group ->
                     parseDirective line = (Go.TrimSpace group, true))) /\
  (forall payload,
      parseDirective line = (payload, true) ->
      exists rest group,
        (line = tab ++ rest \/ line = "    " ++ rest) /\
        rxDirective_submatch rest group /\ payload = Go.TrimSpace group).
Proof.
  split; [|split; [|split]].
  - intros Ht Hs.
    destruct (unindent_cases line) as [[rest [[E | E] _]] | [_ [_ E]]].
    + now apply Ht in E.
    + now apply Hs in E.
    + unfold parseDirective. now rewrite E.
  - intros rest ->. now destruct rest.
  - intros rest Hline. rewrite (parseDirective_indented _ _ Hline). split.
    + intros Hno.
      destruct (Go.FindStringSubmatch_rxDirective rest) as [g|] eqn:E;
        [|reflexivity].
      apply FindStringSubmatch_sound in E as [M _]. now apply Hno in M.
    + intros group Hsub.
      destruct (Go.FindStringSubmatch_rxDirective rest) as [g|] eqn:E.
      * apply FindStringSubmatch_sound in E.
        now rewrite (rxDirective_submatch_unique _ _ _ E Hsub).
      * destruct Hsub as [M _]. now apply FindStringSubmatch_complete in M.
  - intros payload H.
    destruct (unindent_cases line) as [[rest [Hline _]] | [_ [_ E]]].
    + rewrite (parseDirective_indented _ _ Hline) in H.
      destruct (Go.FindStringSubmatch_rxDirective rest) as [g|] eqn:E;
        [|discriminate].
      injection H as <-. exists rest, g.
      split; [assumption|]. split; [now apply FindStringSubmatch_sound | reflexivity].
    + unfold parseDirective in H. rewrite E in H. discriminate.
Qed.

(** ** The default output names *)

Section Strings.

Lemma length_string_of_list_ascii (l : list ascii) :
  String.length (string_of_list_ascii l) = List.length l.
Proof. induction l; simpl; congruence. Qed.

Lemma length_list_ascii_of_string (s : string) :
  List.length (list_ascii_of_string s) = String.length s.
Proof. induction s; simpl; congruence. Qed.

Lemma list_ascii_of_string_app (a b : string) :
  list_ascii_of_string (a ++ b)
  = (list_ascii_of_string a ++ list_ascii_of_string b)%list.
Proof. induction a; simpl; congruence. Qed.

Lemma string_of_list_ascii_app (x y : list ascii) :
  string_of_list_ascii (x ++ y) = string_of_list_ascii x ++ string_of_list_ascii y.
Proof. induction x; simpl; congruence. Qed.

Lemma length_append (a b : string) :
  String.length (a ++ b) = String.length a + String.length b.
Proof. induction a; simpl; congruence. Qed.

Lemma substring_0_append (p q : string) :
  substring 0 (String.length p) (p ++ q) = p.
Proof.
  induction p as [|c p IH]; simpl; [now destruct q | now rewrite IH].
Qed.

Lemma substring_0_all (s : string) : substring 0 (String.length s) s = s.
Proof. induction s; simpl; congruence. Qed.

Lemma length_substring_0 (n : nat) (s : string) :
  String.length (substring 0 n s) <= String.length s.
Proof.
  revert n. induction s as [|c s IH]; intros [|n]; simpl; try lia.
  specialize (IH n). lia.
Qed.

Lemma length_substring_0_le (n : nat) (s : string) :
  String.length (substring 0 n s) <= n.
Proof.
  revert n. induction s as [|c s IH]; intros [|n]; simpl; try lia.
  specialize (IH n). lia.
Qed.

Lemma length_dropWhile (p : ascii -> bool) (l : list ascii) :
  List.length (Go.dropWhile p l) <= List.length l /\
  (List.length (Go.dropWhile p l) = List.length l -> Go.dropWhile p l = l).
Proof.
  induction l as [|c l [IH1 IH2]]; simpl; [now split|].
  destruct (p c); simpl; split; trivial; lia.
Qed.

Lemma length_takeWhile (p : ascii -> bool) (l : list ascii) :
  List.length (Go.takeWhile p l) <= List.length l /\
  (List.length (Go.takeWhile p l) = List.length l -> Go.takeWhile p l = l).
Proof.
  induction l as [|c l [IH1 IH2]]; simpl; [now split|].
  destruct (p c); simpl; split; try lia.
  intros H. f_equal. apply IH2. lia.
Qed.

End Strings.

(** [filepath.Base] returns its argument or a shorter string, but for the
    empty path. *)
Lemma Base_length (path : string) :
  path <> "" ->
  String.length (Go.Base path) <= String.length path /\
  (String.length (Go.Base path) = String.length path -> Go.Base path = path).
Proof.
  intros Hne. unfold Go.Base.
  destruct (String.eqb_spec path ""); [contradiction|].
  pose proof (length_list_ascii_of_string path) as Hlen.
  rewrite <- length_rev in Hlen.
  set (r := rev (list_ascii_of_string path)) in *.
  destruct (length_dropWhile Go.IsPathSeparator r) as [D1 D2].
  destruct (length_takeWhile (fun c => negb (Go.IsPathSeparator c))
              (Go.dropWhile Go.IsPathSeparator r)) as [T1 T2].
  destruct (Go.takeWhile _ (Go.dropWhile Go.IsPathSeparator r)) as [|c last] eqn:E.
  - assert (String.length path <> 0) by (destruct path; [contradiction | discriminate]).
    simpl. split; [lia|]. intros H1.
    destruct path as [|a [|b path]]; try discriminate; try contradiction.
    simpl in r. subst r. simpl in E.
    destruct (Go.IsPathSeparator a) eqn:Ha; [|simpl in E; now rewrite Ha in E].
    apply Ascii.eqb_eq in Ha. now subst.
  - rewrite length_string_of_list_ascii, length_rev. split; [lia|].
    intros H1. rewrite T2, D2 by lia. subst r.
    now rewrite rev_involutive, string_of_list_ascii_of_string.
Qed.

(** [removeExtension] returns its argument or a shorter string. *)
Lemma removeExtension_shrinks (filename : string) :
  removeExtension filename <> filename ->
  String.length (removeExtension filename) < String.length filename.
Proof.
  intros Hne.
  destruct (String.eqb_spec filename "") as [-> | Hf]; [now contradiction Hne|].
  destruct (Base_length filename Hf) as [B1 B2].
  unfold removeExtension in *.
  set (b := Go.Base filename) in *. set (e := Go.Ext b) in *.
  pose proof (length_substring_0 (String.length b - String.length e) b).
  pose proof (length_substring_0_le (String.length b - String.length e) b).
  destruct (Nat.eq_dec (String.length b) (String.length filename)) as [E | E]; [|lia].
  specialize (B2 E).
  destruct (Nat.eq_dec (String.length e) 0) as [E0 | E0].
  - exfalso. apply Hne. rewrite E0, Nat.sub_0_r, substring_0_all. exact B2.
  - assert (String.length filename <> 0)
      by (destruct filename; [contradiction | discriminate]).
    lia.
Qed.

Lemma removeExtensions_loop_terminates (fuel : nat) (f1 : string) :
  String.length f1 <= fuel ->
  exists f2, removeExtensions_loop fuel f1 (removeExtension f1) = Some f2 /\
             removeExtension f2 = f2.
Proof.
  revert f1. induction fuel as [|fuel IH]; intros f1 Hlen.
  - destruct f1; [|simpl in Hlen; lia]. exists "". now split.
  - simpl. destruct (String.eqb_spec f1 (removeExtension f1)) as [E | E].
    + exists (removeExtension f1). split; [reflexivity | congruence].
    + apply IH.
      assert (removeExtension f1 <> f1) as H by congruence.
      apply removeExtension_shrinks in H. lia.
Qed.

(** C10: the loop of [removeExtensions] ends for every file name: its body
    runs at most as many times as the name has bytes, whatever fuel is left
    over, and the string returned is its own [removeExtension]; so for the
    empty name, for "." and for a name with a leading dot. *)
Theorem C10_removeExtensions_terminates (filename : string) (extra : nat) :
  exists f2,
    removeExtensions_fuel (String.length filename + extra) filename = Some f2 /\
    removeExtension f2 = f2 /\
    removeExtensions filename = f2 /\
    removeExtensions "" = "" /\
    removeExtensions "." = "" /\
    removeExtensions ".bashrc" = "".
Proof.
  assert (Hfuel : forall n f1 r,
             removeExtensions_loop n f1 (removeExtension f1) = Some r ->
             forall m, removeExtensions_loop (n + m) f1 (removeExtension f1) = Some r).
  { induction n as [|n IH]; intros f1 r; simpl.
    - destruct (f1 =? removeExtension f1) eqn:E; [|discriminate].
      intros H m. destruct m; simpl; now rewrite E.
    - destruct (f1 =? removeExtension f1) eqn:E; [trivial|]. intros H m.
      now apply IH. }
  destruct (removeExtensions_loop_terminates (String.length filename) filename
              (le_n _)) as [f2 [H1 H2]].
  exists f2. split; [|split; [|split]].
  - unfold removeExtensions_fuel. now apply Hfuel.
  - exact H2.
  - unfold removeExtensions, removeExtensions_fuel. now rewrite H1.
  - repeat split; reflexivity.
Qed.

(** *** The names in the words of the specification *)

Section Names.

Lemma hasDot_cons (c : ascii) (s : string) :
  hasDot (String c s) = Go.isDot c || hasDot s.
Proof. reflexivity. Qed.

Lemma hasDot_append (a b : string) : hasDot (a ++ b) = hasDot a || hasDot b.
Proof.
  unfold hasDot. now rewrite list_ascii_of_string_app, existsb_app.
Qed.

Lemma hasSeparator_append (a b : string) :
  hasSeparator (a ++ b) = hasSeparator a || hasSeparator b.
Proof.
  unfold hasSeparator. now rewrite list_ascii_of_string_app, existsb_app.
Qed.

Lemma last_dot (b : string) :
  hasDot b = true -> exists p q, b = p ++ "." ++ q /\ hasDot q = false.
Proof.
  induction b as [|c b IH]; [discriminate|]. rewrite hasDot_cons.
  destruct (hasDot b) eqn:Hb.
  - intros _. destruct (IH eq_refl) as [p [q [-> Hq]]].
    now exists (String c p), q.
  - rewrite orb_false_r. intros Hc. apply Ascii.eqb_eq in Hc. subst c.
    now exists "", b.
Qed.

Lemma finalExtensionRemoved_no_dot (b : string) :
  hasDot b = false -> finalExtensionRemoved b = b.
Proof.
  destruct b as [|c b]; [reflexivity|]. rewrite hasDot_cons.
  intros H. apply orb_false_iff in H as [Hc Hb]. simpl. now rewrite Hb, Hc.
Qed.

Lemma finalExtensionRemoved_last_dot (p q : string) :
  hasDot q = false -> finalExtensionRemoved (p ++ "." ++ q) = p.
Proof.
  intros Hq. induction p as [|c p IH]; simpl.
  - now rewrite Hq.
  - change (hasDot (p ++ String "." q)) with (hasDot (p ++ "." ++ q)).
    rewrite hasDot_append, hasDot_append, orb_true_r.
    f_equal. exact IH.
Qed.

Lemma allExtensionsRemoved_no_dot (b : string) :
  hasDot b = false -> allExtensionsRemoved b = b.
Proof.
  induction b as [|c b IH]; [reflexivity|]. rewrite hasDot_cons.
  intros H. apply orb_false_iff in H as [Hc Hb]. simpl.
  now rewrite Hc, IH.
Qed.

Lemma allExtensionsRemoved_before_dot (p q : string) :
  allExtensionsRemoved (p ++ "." ++ q) = allExtensionsRemoved p.
Proof.
  induction p as [|c p IH]; simpl; [reflexivity|].
  destruct (Go.isDot c); [reflexivity | now f_equal].
Qed.

Lemma allExtensionsRemoved_final (b : string) :
  allExtensionsRemoved (finalExtensionRemoved b) = allExtensionsRemoved b.
Proof.
  destruct (hasDot b) eqn:Hb.
  - destruct (last_dot b Hb) as [p [q [-> Hq]]].
    now rewrite finalExtensionRemoved_last_dot, allExtensionsRemoved_before_dot.
  - now rewrite finalExtensionRemoved_no_dot.
Qed.

Lemma finalExtensionRemoved_separator (b : string) :
  hasSeparator b = false -> hasSeparator (finalExtensionRemoved b) = false.
Proof.
  intros Hs. destruct (hasDot b) eqn:Hb.
  - destruct (last_dot b Hb) as [p [q [-> Hq]]].
    rewrite finalExtensionRemoved_last_dot by assumption.
    rewrite hasSeparator_append in Hs. now apply orb_false_iff in Hs.
  - now rewrite finalExtensionRemoved_no_dot.
Qed.

Lemma finalExtensionRemoved_fixed (b : string) :
  finalExtensionRemoved b = b -> hasDot b = false.
Proof.
  intros H. destruct (hasDot b) eqn:Hb; [|reflexivity].
  destruct (last_dot b Hb) as [p [q [-> Hq]]].
  rewrite finalExtensionRemoved_last_dot in H by assumption.
  apply (f_equal String.length) in H.
  rewrite !length_append in H. simpl in H. lia.
Qed.

(** *** [filepath.Ext] and [filepath.Base] *)

Lemma Ext_loop_plain (l r : list ascii) (suffix : string) :
  (forall x, In x l -> Go.IsPathSeparator x = false /\ Go.isDot x = false) ->
  Go.Ext_loop (l ++ r) suffix
  = Go.Ext_loop r (string_of_list_ascii (rev l) ++ suffix).
Proof.
  revert suffix. induction l as [|a l IH]; intros suffix Hl; [reflexivity|].
  destruct (Hl a (or_introl eq_refl)) as [H1 H2].
  simpl. rewrite H1, H2, IH by (intros x Hx; apply Hl; now right).
  now rewrite string_of_list_ascii_app, append_assoc.
Qed.

Lemma plain_bytes (q : string) :
  hasSeparator q = false -> hasDot q = false ->
  forall x, In x (rev (list_ascii_of_string q)) ->
            Go.IsPathSeparator x = false /\ Go.isDot x = false.
Proof.
  intros Hs Hd x Hx. apply in_rev in Hx. split.
  - destruct (Go.IsPathSeparator x) eqn:E; [|reflexivity].
    assert (hasSeparator q = true) by (apply existsb_exists; eauto). congruence.
  - destruct (Go.isDot x) eqn:E; [|reflexivity].
    assert (hasDot q = true) by (apply existsb_exists; eauto). congruence.
Qed.

Lemma string_of_rev_rev (q : string) :
  string_of_list_ascii (rev (rev (list_ascii_of_string q))) = q.
Proof. now rewrite rev_involutive, string_of_list_ascii_of_string. Qed.

Lemma Ext_no_dot (b : string) :
  hasSeparator b = false -> hasDot b = false -> Go.Ext b = "".
Proof.
  intros Hs Hd. unfold Go.Ext.
  rewrite <- (app_nil_r (rev (list_ascii_of_string b))).
  now rewrite (Ext_loop_plain _ _ _ (plain_bytes b Hs Hd)).
Qed.

Lemma Ext_last_dot (p q : string) :
  hasSeparator q = false -> hasDot q = false ->
  Go.Ext (p ++ "." ++ q) = "." ++ q.
Proof.
  intros Hs Hd. unfold Go.Ext.
  rewrite !list_ascii_of_string_app, !rev_app_distr. simpl.
  rewrite <- app_assoc.
  rewrite (Ext_loop_plain _ _ _ (plain_bytes q Hs Hd)). simpl.
  now rewrite string_of_rev_rev, append_empty_r.
Qed.

Lemma removeExtension_plain (b : string) :
  hasSeparator b = false ->
  substring 0 (String.length b - String.length (Go.Ext b)) b
  = finalExtensionRemoved b.
Proof.
  intros Hs. destruct (hasDot b) eqn:Hb.
  - destruct (last_dot b Hb) as [p [q [-> Hq]]].
    rewrite !hasSeparator_append in Hs.
    apply orb_false_iff in Hs as [_ Hs]. apply orb_false_iff in Hs as [_ Hs].
    rewrite Ext_last_dot, finalExtensionRemoved_last_dot by assumption.
    rewrite (length_append p).
    replace (String.length p + String.length ("." ++ q) - String.length ("." ++ q))
      with (String.length p) by lia.
    apply substring_0_append.
  - rewrite Ext_no_dot, finalExtensionRemoved_no_dot by assumption.
    simpl. rewrite Nat.sub_0_r. apply substring_0_all.
Qed.

Lemma takeWhile_all (p : ascii -> bool) (l : list ascii) :
  (forall x, In x l -> p x = true) -> Go.takeWhile p l = l.
Proof.
  induction l as [|a l IH]; intros H; simpl; [reflexivity|].
  rewrite (H a (or_introl eq_refl)). f_equal. apply IH.
  intros x Hx. apply H. now right.
Qed.

Lemma takeWhile_holds (p : ascii -> bool) (l : list ascii) :
  forall x, In x (Go.takeWhile p l) -> p x = true.
Proof.
  induction l as [|a l IH]; simpl; [intros x []|].
  destruct (p a) eqn:E; [|intros x []].
  intros x [<- | Hx]; [assumption | now apply IH].
Qed.

Lemma Base_shape (path : string) :
  Go.Base path <> "" /\
  (hasSeparator (Go.Base path) = false \/ Go.Base path = "/").
Proof.
  unfold Go.Base. destruct (path =? ""); [split; [discriminate | now left]|].
  set (stripped := Go.dropWhile Go.IsPathSeparator (rev (list_ascii_of_string path))).
  pose proof (takeWhile_holds (fun c => negb (Go.IsPathSeparator c)) stripped) as H.
  destruct (Go.takeWhile _ stripped) as [|c last];
    [split; [discriminate | now right]|].
  split.
  - intros E. apply (f_equal String.length) in E.
    rewrite length_string_of_list_ascii, length_rev in E. discriminate.
  - left. unfold hasSeparator. rewrite list_ascii_of_string_of_list_ascii.
    destruct (existsb _ _) eqn:E; [|reflexivity].
    apply existsb_exists in E as [x [Hx Hsep]]. apply in_rev in Hx.
    apply H in Hx. now rewrite Hsep in Hx.
Qed.

Lemma Base_fixed (b : string) :
  hasSeparator b = false -> b <> "" -> Go.Base b = b.
Proof.
  intros Hs Hne. unfold Go.Base.
  destruct (String.eqb_spec b ""); [contradiction|].
  assert (Hr : forall x, In x (rev (list_ascii_of_string b)) ->
                         Go.IsPathSeparator x = false).
  { intros x Hx. apply in_rev in Hx.
    destruct (Go.IsPathSeparator x) eqn:E; [|reflexivity].
    assert (hasSeparator b = true) by (apply existsb_exists; eauto). congruence. }
  assert (Hd : Go.dropWhile Go.IsPathSeparator (rev (list_ascii_of_string b))
               = rev (list_ascii_of_string b)).
  { destruct (rev (list_ascii_of_string b)) as [|a l]; [reflexivity|].
    simpl. now rewrite (Hr a (or_introl eq_refl)). }
  rewrite Hd, takeWhile_all by (intros x Hx; now rewrite (Hr x Hx)).
  destruct (rev (list_ascii_of_string b)) as [|a l] eqn:E.
  - apply (f_equal (@List.length ascii)) in E.
    rewrite length_rev, length_list_ascii_of_string in E.
    destruct b; [contradiction | discriminate].
  - rewrite <- E. apply string_of_rev_rev.
Qed.

(** [removeExtension] gives the final element of the path without its
    final extension. *)
Lemma removeExtension_final (filename : string) :
  removeExtension filename = finalExtensionRemoved (Go.Base filename).
Proof.
  unfold removeExtension.
  destruct (Base_shape filename) as [_ [Hs | ->]]; [|reflexivity].
  now apply removeExtension_plain.
Qed.

Lemma nameWithoutExtensions_removeExtension (x : string) : nameWithoutExtensions (removeExtension x) = nameWithoutExtensions x.
Proof.
  unfold nameWithoutExtensions. rewrite removeExtension_final.
  destruct (Base_shape x) as [_ [Hs | ->]]; [|reflexivity].
  destruct (String.eqb_spec (finalExtensionRemoved (Go.Base x)) "") as [E | E].
  - rewrite <- (allExtensionsRemoved_final (Go.Base x)), E. reflexivity.
  - rewrite Base_fixed by (trivial; now apply finalExtensionRemoved_separator).
    apply allExtensionsRemoved_final.
Qed.

Lemma nameWithoutExtensions_fixed (x : string) : removeExtension x = x -> nameWithoutExtensions x = x.
Proof.
  unfold nameWithoutExtensions. rewrite removeExtension_final. intros H.
  destruct (String.eqb_spec x "") as [-> | Hne]; [reflexivity|].
  destruct (Base_shape x) as [_ [Hs | E]].
  - assert (Hx : hasSeparator x = false)
      by (rewrite <- H; now apply finalExtensionRemoved_separator).
    rewrite (Base_fixed x Hx Hne) in *.
    apply allExtensionsRemoved_no_dot. now apply finalExtensionRemoved_fixed.
  - rewrite E in *. now subst x.
Qed.

Lemma removeExtensions_loop_result (fuel : nat) (f1 r : string) :
  removeExtensions_loop fuel f1 (removeExtension f1) = Some r -> r = nameWithoutExtensions f1.
Proof.
  revert f1. induction fuel as [|fuel IH]; intros f1; simpl;
    destruct (String.eqb_spec f1 (removeExtension f1)) as [E | E];
    try discriminate.
  - intros [= <-]. rewrite <- E. symmetry. now apply nameWithoutExtensions_fixed.
  - intros [= <-]. rewrite <- E. symmetry. now apply nameWithoutExtensions_fixed.
  - intros H. rewrite <- nameWithoutExtensions_removeExtension. now apply IH.
Qed.

(** [removeExtensions] gives the final element of the path without any of
    its extensions. *)
Lemma removeExtensions_all (filename : string) :
  removeExtensions filename = allExtensionsRemoved (Go.Base filename).
Proof.
  destruct (removeExtensions_loop_terminates (String.length filename) filename
              (le_n _)) as [f2 [H1 _]].
  unfold removeExtensions, removeExtensions_fuel. rewrite H1.
  now apply removeExtensions_loop_result in H1.
Qed.

End Names.

(** ** The two variants agree *)

Lemma call_processLine (b : Closures.BoundState) (line : string) :
  processLine line (Closures.globals_of b)
  = (Closures.globals_of (fst (Closures.call b line)), snd (Closures.call b line)).
Proof.
  destruct b as [s data]. unfold Closures.call, processLine.
  destruct (parseDirective line) as [d [|]].
  - unfold Closures.processDirective, processDirective.
    destruct (d =? "!--"); [reflexivity|].
    destruct (d =? "#--"); [reflexivity|].
    destruct (d =? ""); reflexivity.
  - unfold Closures.apply_State. destruct (unindent line) as [codeLine c].
    destruct s; simpl;
      destruct c; simpl; try reflexivity;
      destruct (Go.TrimSpace line =? ""); reflexivity.
Qed.

Lemma calls_processLines (b : Closures.BoundState) (lines : list string) :
  processLines lines (Closures.globals_of b)
  = (Closures.globals_of (fst (Closures.calls b lines)),
     snd (Closures.calls b lines)).
Proof.
  revert b. induction lines as [|l ls IH]; intros b; [reflexivity|].
  simpl. rewrite call_processLine.
  destruct (Closures.call b l) as [b1 o1]; simpl. rewrite IH.
  now destruct (Closures.calls b1 ls).
Qed.

Lemma ProcessFile_start_globals (filename : string) :
  Closures.globals_of (Closures.ProcessFile_start filename)
  = ProcessFile_init filename initial.
Proof. reflexivity. Qed.

(** The records of [part_001] for the lines of a document are those of
    [mdweb.go] from mode Text, so that what is proved of [processLines] holds
    of [Closures.calls]. *)
Lemma Closures_records (filename : string) (lines : list string) :
  snd (Closures.calls (Closures.ProcessFile_start filename) lines)
  = snd (processLines lines (ProcessFile_init filename initial)).
Proof. now rewrite <- ProcessFile_start_globals, calls_processLines. Qed.

Lemma Closures_text (filename : string) (lines : list string) :
  textStream (snd (Closures.calls (Closures.ProcessFile_start filename) lines))
  = join (documented lines (ProcessFile_init filename initial)).
Proof.
  rewrite Closures_records. apply textStream_processLines.
  apply ProcessFile_init_text.
Qed.

(** ** Lines before the first directive *)





(** ** The theorems at concrete documents *)

Lemma C2_one_record_per_plain_line_witness :
  snd (processLine (tab ++ "<<main.go>>" ++ nl) initial) = [] /\
  (exists r, snd (processLine ("# Title" ++ nl) initial) = [r]) /\
  List.length (snd (processLines (Go.readLines main_go_md) initial)) = 4 - 1.
Proof.
  destruct C2_one_record_per_plain_line as [H1 [H2 [H3 _]]].
  split; [apply H1; reflexivity|]. split; [apply H2; reflexivity|].
  rewrite H3. reflexivity.
Defined.

Lemma C3_processDirective_witness :
  processDirective "custom.ext" (ProcessFile_init "foo.cpp.md" initial)
  = mkGlobals Code "foo.cpp" "foo.md" "custom.ext" /\
  (currentTarget
     (fst (processLines (["# Title" ++ nl] ++ [tab ++ "<<custom.ext>>" ++ nl])
             (ProcessFile_init "foo.cpp.md" initial))) = "custom.ext" /\
   currentTarget
     (fst (processLines
             ((["# Title" ++ nl] ++ (tab ++ "<<custom.ext>>" ++ nl) :: [foo_cpp_md])
              ++ ["    <<>>" ++ nl])
             (ProcessFile_init "foo.cpp.md" initial))) = "foo.cpp") /\
  state (processDirective "custom.ext"
           (set_state Example (ProcessFile_init "foo.cpp.md" initial))) = Code.
Proof.
  destruct C3_processDirective as [_ [_ [_ [H4 [H5 H6]]]]].
  split; [apply H4; discriminate|].
  split; [|apply H6; discriminate].
  apply (H5 (ProcessFile_init "foo.cpp.md" initial) ["# Title" ++ nl] [foo_cpp_md]
            (tab ++ "<<custom.ext>>" ++ nl) ("    <<>>" ++ nl) "custom.ext");
    try discriminate; reflexivity.
Defined.

Lemma C4_parseDirective_witness :
  parseDirective ("# Title" ++ nl) = ("", false) /\
  parseDirective (tab ++ "int x = 1;" ++ nl) = ("", false) /\
  parseDirective (tab ++ "<< main.go >>" ++ nl) = ("main.go", true).
Proof.
  split; [|split].
  - apply (C4_parseDirective ("# Title" ++ nl)); intros rest H; discriminate H.
  - destruct (C4_parseDirective (tab ++ "int x = 1;" ++ nl)) as [_ [_ [H _]]].
    destruct (H ("int x = 1;" ++ nl) (or_introl eq_refl)) as [Hno _].
    apply Hno. intros group [ws [H1 _]]. discriminate H1.
  - destruct (C4_parseDirective (tab ++ "<< main.go >>" ++ nl)) as [_ [_ [H _]]].
    destruct (H ("<< main.go >>" ++ nl) (or_introl eq_refl)) as [_ Hm].
    exact (Hm " main.go "
             (FindStringSubmatch_sound ("<< main.go >>" ++ nl) " main.go " eq_refl)).
Defined.

Lemma C5_blank_line_continues_witness :
  fst (processLine nl (mkGlobals Boilerplate "foo.cpp" "foo.md" "foo.cpp"))
  = mkGlobals Boilerplate "foo.cpp" "foo.md" "foo.cpp" /\
  snd (processLine nl (mkGlobals Boilerplate "foo.cpp" "foo.md" "foo.cpp"))
  = [Line.mk nl "foo.cpp" "" ""].
Proof.
  apply (C5_blank_line_continues nl (mkGlobals Boilerplate "foo.cpp" "foo.md" "foo.cpp"));
    [reflexivity | reflexivity | discriminate].
Defined.

Lemma C7_frame_witness :
  currentTarget (fst (processLine foo_cpp_md (mkGlobals Text "foo.cpp" "foo.md" "main.go")))
  = "main.go" /\
  exists d,
    parseDirective (tab ++ "<<custom.ext>>" ++ nl) = (d, true) /\
    d <> "!--" /\ d <> "#--" /\
    fst (processLine (tab ++ "<<custom.ext>>" ++ nl)
           (mkGlobals Text "foo.cpp" "foo.md" "main.go"))
    = processDirective d (mkGlobals Text "foo.cpp" "foo.md" "main.go").
Proof.
  destruct C7_frame as [H1 [_ [_ [H4 _]]]].
  split; [apply (H1 foo_cpp_md); reflexivity|].
  apply H4. discriminate.
Defined.

Lemma C8_text_line_resets_mode_witness :
  state (fst (processLine ("More text." ++ nl)
                (mkGlobals Example "foo.cpp" "foo.md" "foo.cpp"))) = Text.
Proof.
  apply C8_text_line_resets_mode; reflexivity.
Defined.


(** * More of the classifier *)

(** ** White space and directives *)

Section TrimSpace.

Lemma isSpace2_bytes (c1 c2 : ascii) :
  Go.isSpace2 c1 c2 = true -> spaceByte c1 = true /\ spaceByte c2 = true.
Proof.
  unfold Go.isSpace2, spaceByte. intros H.
  apply andb_true_iff in H as [H1 H2]. apply Nat.eqb_eq in H1.
  apply orb_true_iff in H2.
  split; apply orb_true_iff; right; apply Nat.leb_le;
    [lia | destruct H2 as [H2 | H2]; apply Nat.eqb_eq in H2; lia].
Qed.

Lemma isSpace3_bytes (c1 c2 c3 : ascii) :
  Go.isSpace3 c1 c2 c3 = true ->
  spaceByte c1 = true /\ spaceByte c2 = true /\ spaceByte c3 = true.
Proof.
  unfold Go.isSpace3, spaceByte. intros H.
  repeat (apply orb_true_iff in H as [H | H]);
    repeat (apply andb_true_iff in H as [H ?]);
    repeat match goal with
           | E : (_ =? _)%nat = true |- _ => apply Nat.eqb_eq in E
           | E : (_ <=? _)%nat = true |- _ => apply Nat.leb_le in E
           | E : _ || _ = true |- _ => apply orb_true_iff in E as [E | E]
           | E : _ && _ = true |- _ => apply andb_true_iff in E as [E ?]
           end;
    repeat split; apply orb_true_iff; right; apply Nat.leb_le; lia.
Qed.

(** One round of [dropSpaces]: it stops, or it drops the bytes of one
    white-space rune. *)
Lemma dropSpaces_cases (back : bool) (s : string) :
  (Go.dropSpaces back s = s /\ startsWithSpace s = false) \/
  (exists p s', s = p ++ s' /\ p <> "" /\ spaceBytes p = true /\
                Go.dropSpaces back s = Go.dropSpaces back s').
Proof.
  destruct s as [|c1 s1]; [left; now split|].
  cbn [Go.dropSpaces]. destruct (Go.isAsciiSpace c1) eqn:E1.
  { right. exists (String c1 ""), s1. repeat split; try discriminate.
    simpl. unfold spaceByte. now rewrite E1. }
  destruct s1 as [|c2 s2]; [left; simpl; now rewrite E1|].
  destruct (if back then Go.isSpace2 c2 c1 else Go.isSpace2 c1 c2) eqn:E2.
  { right. exists (String c1 (String c2 "")), s2. repeat split; try discriminate.
    simpl. destruct back; apply isSpace2_bytes in E2 as [-> ->]; reflexivity. }
  destruct s2 as [|c3 s3]; [left; simpl; now rewrite E1|].
  destruct (if back then Go.isSpace3 c3 c2 c1 else Go.isSpace3 c1 c2 c3) eqn:E3.
  { right. exists (String c1 (String c2 (String c3 ""))), s3.
    repeat split; try discriminate.
    simpl. destruct back; apply isSpace3_bytes in E3 as [-> [-> ->]]; reflexivity. }
  left. simpl. now rewrite E1.
Qed.

Lemma spaceBytes_append (a b : string) :
  spaceBytes (a ++ b) = spaceBytes a && spaceBytes b.
Proof. induction a; simpl; [reflexivity | now rewrite IHa, andb_assoc]. Qed.

(** [dropSpaces] removes a prefix made of white-space bytes and leaves a
    string that does not start with one-byte white space. *)
Lemma dropSpaces_spec (back : bool) (s : string) :
  exists p, s = p ++ Go.dropSpaces back s /\ spaceBytes p = true /\
            startsWithSpace (Go.dropSpaces back s) = false.
Proof.
  remember (String.length s) as n eqn:Hn.
  revert s Hn. induction n as [n IH] using lt_wf_ind. intros s Hn.
  destruct (dropSpaces_cases back s) as [[E Hs] | [p [s' [E [Hp [Hsp Hd]]]]]].
  - exists "". rewrite E. now repeat split.
  - assert (Hlt : String.length s' < n).
    { subst n s. rewrite length_append. destruct p; [contradiction | simpl; lia]. }
    destruct (IH _ Hlt s' eq_refl) as [p' [E' [Hsp' Hst]]].
    exists (p ++ p'). rewrite Hd. repeat split; trivial.
    + now rewrite append_assoc, <- E'.
    + now rewrite spaceBytes_append, Hsp, Hsp'.
Qed.

Lemma rev_string_append (a b : string) :
  Go.rev_string (a ++ b) = Go.rev_string b ++ Go.rev_string a.
Proof.
  unfold Go.rev_string.
  now rewrite list_ascii_of_string_app, rev_app_distr, string_of_list_ascii_app.
Qed.

Lemma rev_string_involutive (s : string) : Go.rev_string (Go.rev_string s) = s.
Proof.
  unfold Go.rev_string.
  now rewrite list_ascii_of_string_of_list_ascii, rev_involutive,
    string_of_list_ascii_of_string.
Qed.

Lemma spaceBytes_forallb (s : string) :
  spaceBytes s = forallb spaceByte (list_ascii_of_string s).
Proof. induction s; simpl; congruence. Qed.

Lemma spaceBytes_rev (s : string) : spaceBytes (Go.rev_string s) = spaceBytes s.
Proof.
  rewrite !spaceBytes_forallb. unfold Go.rev_string.
  rewrite list_ascii_of_string_of_list_ascii.
  destruct (forallb spaceByte (list_ascii_of_string s)) eqn:E.
  - apply forallb_forall. intros x Hx. apply in_rev in Hx.
    now apply (proj1 (forallb_forall _ _) E).
  - destruct (forallb spaceByte (rev (list_ascii_of_string s))) eqn:E'; trivial.
    rewrite <- E. symmetry. apply forallb_forall. intros x Hx.
    apply (proj1 (forallb_forall _ _) E'). now apply in_rev in Hx.
Qed.

Lemma startsWithSpace_append (a b : string) :
  a <> "" -> startsWithSpace (a ++ b) = startsWithSpace a.
Proof. destruct a; [contradiction | reflexivity]. Qed.

(** What [strings.TrimSpace] removes is white-space bytes on both sides, and
    what it leaves neither starts nor ends with one-byte white space. *)
Lemma TrimSpace_spec (s : string) :
  exists p q, s = p ++ Go.TrimSpace s ++ q /\
              spaceBytes p = true /\ spaceBytes q = true /\
              startsWithSpace (Go.TrimSpace s) = false /\
              endsWithSpace (Go.TrimSpace s) = false.
Proof.
  unfold Go.TrimSpace, Go.TrimRightSpace, Go.TrimLeftSpace, endsWithSpace.
  destruct (dropSpaces_spec false s) as [p [E1 [Hp H1]]].
  set (t := Go.dropSpaces false s) in *.
  destruct (dropSpaces_spec true (Go.rev_string t)) as [q [E2 [Hq H2]]].
  set (u := Go.dropSpaces true (Go.rev_string t)) in *.
  assert (Et : t = Go.rev_string u ++ Go.rev_string q).
  { rewrite <- rev_string_append, <- E2. now rewrite rev_string_involutive. }
  exists p, (Go.rev_string q). repeat split.
  - now rewrite <- Et.
  - exact Hp.
  - now rewrite spaceBytes_rev.
  - destruct (String.eqb_spec (Go.rev_string u) "") as [-> | Hne]; [reflexivity|].
    now rewrite <- (startsWithSpace_append _ (Go.rev_string q)), <- Et.
  - now rewrite rev_string_involutive.
Qed.

End TrimSpace.

(** A directive line is an indent, "<<", a group without newline, ">>" and
    white space; its payload is the group trimmed. *)
Lemma directive_shape (line : string) :
  isDirective line = true ->
  exists indent group ws,
    (indent = tab \/ indent = "    ") /\
    line = indent ++ "<<" ++ group ++ ">>" ++ ws /\
    noNewline group = true /\ Go.allRegexpSpace ws = true /\
    parseDirective line = (Go.TrimSpace group, true).
Proof.
  intros H. destruct (isDirective_true _ H) as [d Hd]. pose proof Hd as Hd0.
  destruct (unindent_cases line) as [[rest [Hline _]] | [_ [_ E]]].
  - rewrite (parseDirective_indented _ _ Hline) in Hd.
    destruct (Go.FindStringSubmatch_rxDirective rest) as [g|] eqn:E; [|discriminate].
    injection Hd as <-.
    apply FindStringSubmatch_sound in E as [[ws [-> [Hg Hw]]] _].
    destruct Hline as [-> | ->].
    + exists tab, g, ws. repeat split; auto.
    + exists "    ", g, ws. repeat split; auto.
  - unfold parseDirective in Hd. rewrite E in Hd. discriminate.
Qed.

Lemma spaceBytes_lt (a b : string) : spaceBytes (a ++ String "<" b) = false.
Proof. induction a as [|c a IH]; simpl; [reflexivity | now rewrite IH, andb_false_r]. Qed.

(** X1: a blank line is never a directive. *)
Theorem X1_blank_line_not_directive (line : string) :
  isBlank line = true -> isDirective line = false.
Proof.
  intros Hb. destruct (isDirective line) eqn:Hd; [|reflexivity].
  destruct (directive_shape _ Hd) as [indent [group [ws [_ [Hline _]]]]].
  apply String.eqb_eq in Hb.
  destruct (TrimSpace_spec line) as [p [q [E [Hp [Hq _]]]]].
  rewrite Hb in E. simpl in E.
  assert (Hs : spaceBytes line = true) by (rewrite E, spaceBytes_append; now rewrite Hp, Hq).
  rewrite Hline in Hs.
  change (indent ++ "<<" ++ group ++ ">>" ++ ws)
    with (indent ++ String "<" (String "<" (group ++ ">>" ++ ws))) in Hs.
  now rewrite spaceBytes_lt in Hs.
Qed.

Lemma X1_blank_line_not_directive_witness :
  isDirective (tab ++ "   " ++ nl) = false.
Proof. apply X1_blank_line_not_directive. reflexivity. Defined.




(** ** The modes a document reaches *)

Lemma payloads_cons (line : string) (lines : list string) :
  payloads (line :: lines)
  = if isDirective line then fst (parseDirective line) :: payloads lines
    else payloads lines.
Proof. unfold payloads. simpl. now destruct (isDirective line). Qed.

Lemma special_mode_step (line : string) (g : Globals) :
  (state (fst (processLine line g)) = Boilerplate ->
   state g = Boilerplate \/ parseDirective line = ("#--", true)) /\
  (state (fst (processLine line g)) = Example ->
   state g = Example \/ parseDirective line = ("!--", true)).
Proof.
  destruct (processLine_cases line g) as [[d [Hd ->]] | [Hn ->]]; simpl.
  - rewrite Hd. directive_cases d; subst; split; intros H; auto; discriminate.
  - classify_cases g line; split; intros H; auto; congruence.
Qed.

(** X3: a document is in mode Boilerplate after some lines only if it was
    at their start or one of them is the directive "#--", and in mode Example
    only if it was at their start or one of them is the directive "!--": the
    lines that are not directives never enter these modes. *)
Theorem X3_special_modes (lines : list string) (g : Globals) :
  (state (fst (processLines lines g)) = Boilerplate ->
   state g = Boilerplate \/ In "#--" (payloads lines)) /\
  (state (fst (processLines lines g)) = Example ->
   state g = Example \/ In "!--" (payloads lines)).
Proof.
  revert g. induction lines as [|l ls IH]; intros g; [simpl; auto|].
  rewrite processLines_cons, payloads_cons; simpl fst.
  destruct (IH (fst (processLine l g))) as [IH1 IH2].
  destruct (special_mode_step l g) as [S1 S2].
  assert (Hp : forall d, parseDirective l = (d, true) ->
                         isDirective l = true /\ fst (parseDirective l) = d).
  { intros d Hd. unfold isDirective. now rewrite Hd. }
  split; intros H.
  - destruct (IH1 H) as [H1 | H1].
    + destruct (S1 H1) as [H2 | H2]; [now left|].
      destruct (Hp _ H2) as [-> ->]. right. now left.
    + right. destruct (isDirective l); [now right | assumption].
  - destruct (IH2 H) as [H1 | H1].
    + destruct (S2 H1) as [H2 | H2]; [now left|].
      destruct (Hp _ H2) as [-> ->]. right. now left.
    + right. destruct (isDirective l); [now right | assumption].
Qed.

Lemma X3_special_modes_witness :
  state (mkGlobals Text "foo.cpp" "foo.md" "foo.cpp") = Boilerplate \/
  In "#--" (payloads (Go.readLines readme_md)).
Proof.
  apply (X3_special_modes (Go.readLines readme_md)
           (mkGlobals Text "foo.cpp" "foo.md" "foo.cpp")).
  reflexivity.
Defined.

(** ** The code output *)

Lemma codeStream_app (target : string) (a b : list Line.t) :
  codeStream target (a ++ b) = codeStream target a ++ codeStream target b.
Proof.
  induction a as [|r a IH]; simpl; [reflexivity|].
  destruct (negb (Line.CodeTarget r =? "") && (Line.CodeTarget r =? target));
    [|assumption].
  now rewrite IH, append_assoc.
Qed.

Lemma codeStream_processLine (target line : string) (g : Globals) :
  target <> "" ->
  codeStream target (snd (processLine line g))
  = if negb (isDirective line) && codeLine (state g) line
       && (currentTarget g =? target)
    then fst (unindent line) else "".
Proof.
  intros Ht.
  destruct (processLine_cases line g) as [[d [Hd ->]] | [Hn ->]].
  - unfold isDirective. now rewrite Hd.
  - rewrite Hn. unfold classify, codeLine.
    assert (Hc : negb (currentTarget g =? "") && (currentTarget g =? target)
                 = (currentTarget g =? target)).
    { destruct (String.eqb_spec (currentTarget g) target) as [E | E];
        [|now rewrite andb_false_r].
      rewrite andb_true_r. apply negb_true_iff, String.eqb_neq. congruence. }
    destruct (state g); destruct (isCode line || isBlank line);
      try destruct (isCode line); simpl; rewrite ?Hc;
      try destruct (currentTarget g =? target); simpl;
      rewrite ?append_empty_r; reflexivity.
Qed.

Lemma codeStream_processLines (target : string) (lines : list string) (g : Globals) :
  target <> "" ->
  codeStream target (snd (processLines lines g)) = join (tangled target lines g).
Proof.
  intros Ht. revert g. induction lines as [|l ls IH]; intros g; [reflexivity|].
  rewrite processLines_cons; simpl snd.
  rewrite codeStream_app, codeStream_processLine, IH by assumption.
  unfold tangled; simpl.
  destruct (negb (isDirective l) && codeLine (state g) l && (currentTarget g =? target));
    reflexivity.
Qed.

(** X4: what a document sends to the code file [target] is, in order, the
    lines that are processed as code while [target] is the current target,
    each without its indent: the indented lines and, in a run of code or
    boilerplate, the blank lines; directives, text and example lines send
    nothing. *)
Theorem X4_code_output (filename contents target : string) (g : Globals) :
  target <> "" ->
  exists records,
    snd (ProcessFile filename (Some contents) g) = Some records /\
    codeStream target records
    = join (tangled target (Go.readLines contents) (ProcessFile_init filename g)).
Proof.
  intros Ht. unfold ProcessFile.
  pose proof (codeStream_processLines target (Go.readLines contents)
                (ProcessFile_init filename g) Ht) as H.
  destruct (processLines (Go.readLines contents) (ProcessFile_init filename g))
    as [g' out]; simpl in H.
  exists out. now split.
Qed.

Lemma X4_code_output_witness :
  exists records,
    snd (ProcessFile "main.go.md" (Some main_go_md) initial) = Some records /\
    codeStream "main.go" records = "package main" ++ nl.
Proof.
  destruct (X4_code_output "main.go.md" main_go_md "main.go" initial)
    as [records [H1 H2]]; [discriminate|].
  exists records. split; [exact H1|]. rewrite H2. reflexivity.
Defined.

(** ** The files a document writes to *)

Lemma processDirective_target (d : string) (g : Globals) :
  currentTarget (processDirective d g) = currentTarget g \/
  currentTarget (processDirective d g) = defaultCodeOutput g \/
  currentTarget (processDirective d g) = d.
Proof. directive_cases d; auto. Qed.

Lemma record_targets_step (line : string) (g : Globals) (r : Line.t) :
  In r (snd (processLine line g)) ->
  (Line.TextTarget r = "" \/ Line.TextTarget r = defaultTextOutput g) /\
  (Line.CodeTarget r = "" \/ Line.CodeTarget r = currentTarget g).
Proof.
  destruct (processLine_cases line g) as [[d [_ ->]] | [_ ->]]; [intros []|].
  classify_cases g line; intros [<- | []]; simpl; auto.
Qed.

Lemma record_targets_run (lines : list string) (g : Globals) (r : Line.t) :
  In r (snd (processLines lines g)) ->
  (Line.TextTarget r = "" \/ Line.TextTarget r = defaultTextOutput g) /\
  (Line.CodeTarget r = "" \/ Line.CodeTarget r = currentTarget g \/
   Line.CodeTarget r = defaultCodeOutput g \/ In (Line.CodeTarget r) (payloads lines)).
Proof.
  revert g. induction lines as [|l ls IH]; intros g; [intros []|].
  rewrite processLines_cons, payloads_cons; simpl snd. intros Hin.
  apply in_app_or in Hin as [Hin | Hin].
  - destruct (record_targets_step _ _ _ Hin) as [H1 [H2 | H2]]; auto.
  - destruct (IH _ Hin) as [H1 H2].
    destruct (processLine_defaults l g) as [Dc Dt]. rewrite Dc, Dt in *.
    split; [assumption|].
    destruct H2 as [H2 | [H2 | [H2 | H2]]]; auto.
    + destruct (processLine_cases l g) as [[d [Hd E]] | [Hn E]]; rewrite E in H2.
      * simpl in H2. unfold isDirective. rewrite Hd. simpl.
        destruct (processDirective_target d g) as [T | [T | T]];
          rewrite T in H2; auto.
      * right. left. rewrite H2. clear. classify_cases g l; reflexivity.
    + right. right. right. destruct (isDirective l); [now right | assumption].
Qed.

(** X5: every record of a document has its text target empty or the default
    text output of the document, and its code target empty, the default code
    output of the document or the payload of one of its directives. *)
Theorem X5_targets_of_a_document
  (filename contents : string) (g : Globals) (records : list Line.t) (r : Line.t) :
  snd (ProcessFile filename (Some contents) g) = Some records ->
  In r records ->
  (Line.TextTarget r = "" \/ Line.TextTarget r = removeExtensions filename ++ ".md") /\
  (Line.CodeTarget r = "" \/ Line.CodeTarget r = removeExtension filename \/
   In (Line.CodeTarget r) (payloads (Go.readLines contents))).
Proof.
  unfold ProcessFile.
  pose proof (record_targets_run (Go.readLines contents)
                (ProcessFile_init filename g) r) as H.
  destruct (processLines (Go.readLines contents) (ProcessFile_init filename g))
    as [g' out]; simpl in H.
  intros [= <-] Hin. destruct (H Hin) as [H1 H2]. split; [exact H1|].
  destruct H2 as [H2 | [H2 | [H2 | H2]]]; auto.
Qed.

Lemma X5_targets_of_a_document_witness :
  Line.CodeTarget (Line.mk ("package main" ++ nl) "main.go"
                           (tab ++ "package main" ++ nl) "main.md") = ""
  \/ "main.go" = removeExtension "main.go.md"
  \/ In "main.go" (payloads (Go.readLines main_go_md)).
Proof.
  refine (proj2 (X5_targets_of_a_document "main.go.md" main_go_md initial _
                   (Line.mk ("package main" ++ nl) "main.go"
                            (tab ++ "package main" ++ nl) "main.md") eq_refl _)).
  right. left. reflexivity.
Defined.

(** ** More on the default output names *)

Section MoreNames.

Lemma allExtensionsRemoved_prefix (b : string) :
  exists rest, b = allExtensionsRemoved b ++ rest.
Proof.
  induction b as [|c b [rest IH]]; [now exists ""|]. simpl.
  destruct (Go.isDot c); [now exists (String c b)|].
  exists rest. simpl. now rewrite <- IH.
Qed.

Lemma allExtensionsRemoved_dot (b : string) : hasDot (allExtensionsRemoved b) = false.
Proof.
  induction b as [|c b IH]; [reflexivity|]. simpl.
  destruct (Go.isDot c) eqn:E; [reflexivity|].
  now rewrite hasDot_cons, E, IH.
Qed.

Lemma allExtensionsRemoved_separator (b : string) :
  hasSeparator b = false -> hasSeparator (allExtensionsRemoved b) = false.
Proof.
  intros H. destruct (allExtensionsRemoved_prefix b) as [rest E].
  rewrite E, hasSeparator_append in H. now apply orb_false_iff in H.
Qed.

Lemma Ext_of_Base (filename : string) :
  finalExtensionRemoved (Go.Base filename) ++ Go.Ext (Go.Base filename)
  = Go.Base filename /\
  (Go.Ext (Go.Base filename) = "" \/
   exists q, Go.Ext (Go.Base filename) = "." ++ q /\ hasDot q = false).
Proof.
  destruct (Base_shape filename) as [_ [Hs | ->]]; [|split; [reflexivity | now left]].
  set (b := Go.Base filename) in *.
  destruct (hasDot b) eqn:Hb.
  - destruct (last_dot b Hb) as [p [q [E Hq]]]. rewrite E in *.
    rewrite !hasSeparator_append in Hs.
    apply orb_false_iff in Hs as [_ Hs]. apply orb_false_iff in Hs as [_ Hs].
    rewrite Ext_last_dot, finalExtensionRemoved_last_dot by assumption.
    split; [reflexivity|]. right. now exists q.
  - rewrite Ext_no_dot, finalExtensionRemoved_no_dot by assumption.
    split; [apply append_empty_r | now left].
Qed.

(** X6: the default code output with the extension that was taken off put
    back is the last element of the path of the document, and that extension
    is empty or a dot followed by a string without a dot. *)
Theorem X6_extension_put_back (filename : string) :
  removeExtension filename ++ Go.Ext (Go.Base filename) = Go.Base filename /\
  (Go.Ext (Go.Base filename) = "" \/
   exists q, Go.Ext (Go.Base filename) = "." ++ q /\ hasDot q = false).
Proof. rewrite removeExtension_final. apply Ext_of_Base. Qed.

(** X7: the name [removeExtensions] returns has no dot, so that the default
    text output has the one extension ".md"; [removeExtensions] leaves it as
    it is; and the default code output starts with it. *)
Theorem X7_stem (filename : string) :
  hasDot (removeExtensions filename) = false /\
  removeExtensions (removeExtensions filename) = removeExtensions filename /\
  exists extensions,
    removeExtension filename = removeExtensions filename ++ extensions.
Proof.
  rewrite (removeExtensions_all filename). split; [|split].
  - apply allExtensionsRemoved_dot.
  - set (r := allExtensionsRemoved (Go.Base filename)).
    rewrite removeExtensions_all.
    destruct (String.eqb_spec r "") as [-> | Hne]; [reflexivity|].
    destruct (Base_shape filename) as [_ [Hs | E]].
    + rewrite Base_fixed; trivial.
      * apply allExtensionsRemoved_no_dot, allExtensionsRemoved_dot.
      * now apply allExtensionsRemoved_separator.
    + unfold r. rewrite E. reflexivity.
  - rewrite removeExtension_final, <- allExtensionsRemoved_final.
    apply allExtensionsRemoved_prefix.
Qed.

Lemma takeWhile_app (p : ascii -> bool) (l r : list ascii) (c : ascii) :
  (forall x, In x l -> p x = true) -> p c = false ->
  Go.takeWhile p (l ++ c :: r) = l.
Proof.
  intros Hl Hc. induction l as [|a l IH]; simpl; [now rewrite Hc|].
  rewrite (Hl a (or_introl eq_refl)). f_equal. apply IH.
  intros x Hx. apply Hl. now right.
Qed.

Lemma Base_of_path (dir name : string) :
  hasSeparator name = false -> name <> "" ->
  Go.Base (dir ++ "/" ++ name) = name.
Proof.
  intros Hs Hne. unfold Go.Base.
  destruct (String.eqb_spec (dir ++ "/" ++ name) "") as [E | _].
  { apply (f_equal String.length) in E. rewrite !length_append in E.
    simpl in E. lia. }
  rewrite !list_ascii_of_string_app, !rev_app_distr. simpl. rewrite <- app_assoc.
  simpl.
  assert (Hr : forall x, In x (rev (list_ascii_of_string name)) ->
                         Go.IsPathSeparator x = false).
  { intros x Hx. apply in_rev in Hx.
    destruct (Go.IsPathSeparator x) eqn:E; [|reflexivity].
    assert (hasSeparator name = true) by (apply existsb_exists; eauto). congruence. }
  destruct (rev (list_ascii_of_string name)) as [|a l] eqn:E.
  { apply (f_equal (@List.length ascii)) in E.
    rewrite length_rev, length_list_ascii_of_string in E.
    destruct name; [contradiction | discriminate]. }
  assert (Hd : Go.dropWhile Go.IsPathSeparator
                 ((a :: l) ++ "/"%char :: rev (list_ascii_of_string dir))%list
               = ((a :: l) ++ "/"%char :: rev (list_ascii_of_string dir))%list).
  { simpl. now rewrite (Hr a (or_introl eq_refl)). }
  rewrite Hd, takeWhile_app; [| intros x Hx; now rewrite (Hr x Hx) | reflexivity].
  rewrite <- E. apply string_of_rev_rev.
Qed.

(** X8: the default outputs do not depend on the directory of the document:
    they are names without a directory, those of the last element of the
    path. *)
Theorem X8_directory_ignored (dir name : string) :
  hasSeparator name = false -> name <> "" ->
  removeExtension (dir ++ "/" ++ name) = removeExtension name /\
  removeExtensions (dir ++ "/" ++ name) = removeExtensions name /\
  hasSeparator (removeExtension (dir ++ "/" ++ name)) = false /\
  hasSeparator (removeExtensions (dir ++ "/" ++ name)) = false.
Proof.
  intros Hs Hne.
  rewrite !removeExtension_final, !removeExtensions_all.
  rewrite Base_of_path, Base_fixed by assumption.
  repeat split; trivial.
  - now apply finalExtensionRemoved_separator.
  - now apply allExtensionsRemoved_separator.
Qed.

Lemma X8_directory_ignored_witness :
  removeExtension ("docs/src" ++ "/" ++ "foo.cpp.md") = removeExtension "foo.cpp.md" /\
  removeExtensions ("docs/src" ++ "/" ++ "foo.cpp.md") = removeExtensions "foo.cpp.md".
Proof.
  destruct (X8_directory_ignored "docs/src" "foo.cpp.md") as [H1 [H2 _]];
    [reflexivity | discriminate | now split].
Defined.

(** X9: for a document whose name is a stem and one extension, the default
    code output is the stem and the default text output the stem with ".md":
    a document "stem.md" has itself as its default text output. *)
Theorem X9_one_extension (stem ext : string) (g : Globals) :
  hasDot stem = false -> hasSeparator stem = false -> stem <> "" ->
  hasDot ext = false -> hasSeparator ext = false ->
  defaultCodeOutput (ProcessFile_init (stem ++ "." ++ ext) g) = stem /\
  defaultTextOutput (ProcessFile_init (stem ++ "." ++ ext) g) = stem ++ ".md" /\
  defaultTextOutput (ProcessFile_init (stem ++ ".md") g) = stem ++ ".md".
Proof.
  intros Hd Hs Hne Hde Hse.
  assert (Hb : forall e, hasSeparator e = false ->
                         Go.Base (stem ++ "." ++ e) = stem ++ "." ++ e).
  { intros e He. apply Base_fixed.
    - rewrite !hasSeparator_append, Hs, He. reflexivity.
    - destruct stem; [contradiction | discriminate]. }
  assert (Ha : forall e, hasSeparator e = false ->
                         removeExtensions (stem ++ "." ++ e) = stem).
  { intros e He. rewrite removeExtensions_all, (Hb e He).
    rewrite allExtensionsRemoved_before_dot. now apply allExtensionsRemoved_no_dot. }
  unfold ProcessFile_init. cbn [defaultCodeOutput defaultTextOutput].
  rewrite removeExtension_final, (Hb ext Hse), (Ha ext Hse).
  rewrite finalExtensionRemoved_last_dot by assumption.
  repeat split.
  change (stem ++ ".md") with (stem ++ "." ++ "md") at 1.
  now rewrite (Ha "md" eq_refl).
Qed.

Lemma X9_one_extension_witness :
  defaultCodeOutput (ProcessFile_init ("README" ++ "." ++ "md") initial) = "README" /\
  defaultTextOutput (ProcessFile_init ("README" ++ ".md") initial) = "README" ++ ".md".
Proof.
  destruct (X9_one_extension "README" "md" initial) as [H1 [_ H3]];
    try reflexivity; [discriminate | now split].
Defined.

End MoreNames.

(** * [ProcessFiles] *)

Section OutputFiles.

Variable Create : string -> bool.


Lemma written_not_mem (t : string) (outs : Files.t) :
  Files.mem t outs = false -> Files.written t outs = "".
Proof.
  induction outs as [|[k v] rest IH]; simpl; [reflexivity|].
  destruct (k =? t); simpl; [discriminate | exact IH].
Qed.











End OutputFiles.

Section Runs.

Variable Create : string -> bool.







End Runs.




(** ** The mode between documents *)

(** X13: [ProcessFile] leaves [state] as the document before left it: after
    a document that ends in mode Example, the first line of the next
    document, when it is indented and not a directive, is sent to the text
    only. *)
Theorem X13_mode_kept_between_documents
  (file1 contents1 file2 contents2 line : string) (rest : list string)
  (g : Globals) :
  state (fst (ProcessFile file1 (Some contents1) g)) = Example ->
  Go.readLines contents2 = line :: rest ->
  isCode line = true -> isDirective line = false ->
  exists records,
    snd (ProcessFile file2 (Some contents2)
           (fst (ProcessFile file1 (Some contents1) g)))
    = Some (Line.mk "" "" line (removeExtensions file2 ++ ".md") :: records).
Proof.
  intros Hs Hl Hc Hd. set (g1 := fst (ProcessFile file1 (Some contents1) g)) in *.
  unfold ProcessFile. rewrite Hl, processLines_cons.
  rewrite (processLine_plain _ _ Hd). unfold classify.
  replace (state (ProcessFile_init file2 g1)) with Example by (symmetry; exact Hs).
  rewrite Hc. simpl.
  destruct (processLines rest (ProcessFile_init file2 g1)) as [g2 out]; simpl.
  eauto.
Qed.

Lemma X13_mode_kept_between_documents_witness :
  exists records,
    snd (ProcessFile "b.go.md" (Some foo_cpp_md)
           (fst (ProcessFile "a.go.md"
                   (Some (tab ++ "<<!-->>" ++ nl ++ tab ++ "use(x)" ++ nl)) initial)))
    = Some (Line.mk "" "" foo_cpp_md "b.md" :: records).
Proof.
  apply (X13_mode_kept_between_documents "a.go.md"
           (tab ++ "<<!-->>" ++ nl ++ tab ++ "use(x)" ++ nl)
           "b.go.md" foo_cpp_md foo_cpp_md [""]); reflexivity.
Defined.

(** * The older variants *)

Lemma isCode_prefix (line : string) :
  Go.HasPrefix line tab || Go.HasPrefix line "    " = isCode line.
Proof.
  unfold isCode, unindent.
  destruct (Go.HasPrefix line tab); [reflexivity|].
  now destruct (Go.HasPrefix line "    ").
Qed.

Lemma HasPrefix_tab (c : ascii) (line : string) :
  Go.HasPrefix (String c line) tab = Ascii.eqb c Go.tab.
Proof.
  unfold tab. cbn [Go.HasPrefix]. rewrite andb_true_r. apply Ascii.eqb_sym.
Qed.

Lemma strip_unindent (line : string) :
  isCode line = true -> Part000.strip line = fst (unindent line).
Proof.
  unfold isCode, unindent, Part000.strip.
  destruct line as [|c line]; [discriminate|].
  rewrite HasPrefix_tab.
  destruct (Ascii.eqb c Go.tab); [reflexivity|].
  destruct (Go.HasPrefix (String c line) "    "); [reflexivity | discriminate].
Qed.

(** The directive test of the older variants, on an indented line, is that
    of [parseDirective]. *)
Lemma parseDirective_strip (line : string) :
  isCode line = true ->
  parseDirective line
  = match Go.FindStringSubmatch_rxDirective (Part000.strip line) with
    | Some group => (Go.TrimSpace group, true)
    | None => ("", false)
    end.
Proof.
  intros H. rewrite (strip_unindent _ H).
  unfold parseDirective, isCode in *.
  destruct (unindent line) as [rest b]; simpl in *. subst b. reflexivity.
Qed.

(** ** [part_000] and the first variant *)

Lemma First_step (line : string) (g : First.Globals) :
  isBoilerplateDirective line = false ->
  Part000.processLine line (First.globalsPart000 g)
  = (First.globalsPart000 (fst (First.processLine line g)),
     map (First.toPart000 (First.targetTextFile g)) (snd (First.processLine line g))).
Proof.
  intros Hb. destruct g as [ct ic tcf ttf wc].
  unfold Part000.processLine, First.processLine, First.globalsPart000.
  rewrite isCode_prefix.
  unfold isBoilerplateDirective, isDirective in Hb.
  destruct (isCode line) eqn:Hc.
  - rewrite (parseDirective_strip _ Hc) in Hb.
    set (m := Go.FindStringSubmatch_rxDirective (Part000.strip line)) in *.
    set (code := Part000.strip line).
    cbn [Part000.currentTarget Part000.isBoilerplate Part000.isExample
         Part000.targetCodeFile Part000.targetTextFile Part000.writingCode
         First.currentTarget First.isComment First.targetCodeFile
         First.targetTextFile First.writingCode].
    destruct (ct =? ""), ic; try reflexivity;
      destruct m as [group|]; try reflexivity;
      simpl in Hb; cbn [Part000.isBoilerplate Part000.isExample First.isComment
                        Part000.currentTarget First.currentTarget];
      rewrite ?Hb; destruct (Go.TrimSpace group =? "!--"); reflexivity.
  - set (blank := Go.TrimSpace line =? "").
    cbn [Part000.currentTarget Part000.isBoilerplate Part000.isExample
         Part000.targetCodeFile Part000.targetTextFile Part000.writingCode
         First.currentTarget First.isComment First.targetCodeFile
         First.targetTextFile First.writingCode].
    destruct (ct =? ""), wc, blank; reflexivity.
Qed.

Lemma First_targetTextFile (line : string) (g : First.Globals) :
  First.targetTextFile (fst (First.processLine line g)) = First.targetTextFile g.
Proof.
  unfold First.processLine.
  set (g0 := if First.currentTarget g =? "" then _ else g).
  assert (Ht : First.targetTextFile g0 = First.targetTextFile g)
    by (unfold g0; now destruct (First.currentTarget g =? "")).
  destruct (Go.HasPrefix line tab || Go.HasPrefix line "    ").
  - destruct (First.isComment g0); [exact Ht|].
    destruct (Go.FindStringSubmatch_rxDirective (Part000.strip line));
      [destruct (Go.TrimSpace s =? "!--")|]; exact Ht.
  - destruct (First.writingCode g0 && (Go.TrimSpace line =? "")); exact Ht.
Qed.

Lemma First_run (lines : list string) (g : First.Globals) :
  forallb (fun l => negb (isBoilerplateDirective l)) lines = true ->
  Part000.processLines lines (First.globalsPart000 g)
  = (First.globalsPart000 (fst (First.processLines lines g)),
     map (First.toPart000 (First.targetTextFile g)) (snd (First.processLines lines g))).
Proof.
  revert g. induction lines as [|l ls IH]; intros g Hall; [reflexivity|].
  simpl in Hall. apply andb_true_iff in Hall as [Hl Hall].
  apply negb_true_iff in Hl.
  simpl. rewrite (First_step l g Hl).
  pose proof (First_targetTextFile l g) as Ht.
  destruct (First.processLine l g) as [g1 o1]; simpl in *.
  rewrite (IH g1 Hall), Ht.
  destruct (First.processLines ls g1) as [g2 o2]; simpl.
  now rewrite map_app.
Qed.

(** X14: on a document without the directive "#--", [part_000] sends the
    records of the first variant of [mdweb.go] and keeps the same state: a
    code record of the first variant becomes a record with the code target
    and the text file, a text record one with the text target alone. *)
Theorem X14_part_000_extends_first (lines : list string) (g : First.Globals) :
  forallb (fun l => negb (isBoilerplateDirective l)) lines = true ->
  Part000.processLines lines (First.globalsPart000 g)
  = (First.globalsPart000 (fst (First.processLines lines g)),
     map (First.toPart000 (First.targetTextFile g)) (snd (First.processLines lines g))).
Proof. apply First_run. Qed.

Lemma X14_part_000_extends_first_witness :
  Part000.processLines (Go.readLines main_go_md)
    (First.globalsPart000 (First.mkGlobals "" false "main.go" "main.md" false))
  = (First.globalsPart000
       (fst (First.processLines (Go.readLines main_go_md)
               (First.mkGlobals "" false "main.go" "main.md" false))),
     map (First.toPart000 "main.md")
       (snd (First.processLines (Go.readLines main_go_md)
               (First.mkGlobals "" false "main.go" "main.md" false)))).
Proof.
  apply (X14_part_000_extends_first (Go.readLines main_go_md)
           (First.mkGlobals "" false "main.go" "main.md" false)).
  reflexivity.
Defined.

(** ** [part_000]: the code target *)

Lemma Part000_step (line : string) (g : Part000.Globals) :
  isDirective line = false ->
  targetPart000 (fst (Part000.processLine line g)) = targetPart000 g /\
  Part000.targetCodeFile (fst (Part000.processLine line g)) = Part000.targetCodeFile g /\
  forall r, In r (snd (Part000.processLine line g)) ->
            Part000.CodeTarget r = "" \/ Part000.CodeTarget r = targetPart000 g.
Proof.
  intros Hd. destruct g as [ct ib ie tcf ttf wc].
  unfold Part000.processLine, targetPart000. rewrite isCode_prefix.
  unfold isDirective in Hd.
  destruct (isCode line) eqn:Hc.
  - rewrite (parseDirective_strip _ Hc) in Hd.
    set (m := Go.FindStringSubmatch_rxDirective (Part000.strip line)) in *.
    set (code := Part000.strip line).
    cbn [Part000.currentTarget Part000.isBoilerplate Part000.isExample
         Part000.targetCodeFile Part000.targetTextFile Part000.writingCode].
    destruct m as [group|]; [discriminate|].
    destruct (String.eqb_spec ct "") as [-> | Hct];
      cbn [Part000.currentTarget Part000.isBoilerplate Part000.isExample
           Part000.targetCodeFile Part000.targetTextFile Part000.writingCode];
      destruct ie, ib; cbn; rewrite ?String.eqb_refl;
      try (destruct (String.eqb_spec ct ""); [contradiction|]);
      try (destruct (tcf =? "")); repeat split; intros r [<- | []]; auto.
  - set (blank := Go.TrimSpace line =? "").
    cbn [Part000.currentTarget Part000.isBoilerplate Part000.isExample
         Part000.targetCodeFile Part000.targetTextFile Part000.writingCode].
    destruct (String.eqb_spec ct "") as [-> | Hct];
      cbn [Part000.currentTarget Part000.isBoilerplate Part000.isExample
           Part000.targetCodeFile Part000.targetTextFile Part000.writingCode];
      destruct wc, blank, ib; cbn; rewrite ?String.eqb_refl;
      try (destruct (String.eqb_spec ct ""); [contradiction|]);
      try (destruct (tcf =? "")); repeat split; intros r [<- | []]; auto.
Qed.

Lemma Part000_run (lines : list string) (g : Part000.Globals) (r : Part000.Line) :
  forallb (fun l => negb (isDirective l)) lines = true ->
  In r (snd (Part000.processLines lines g)) ->
  Part000.CodeTarget r = "" \/ Part000.CodeTarget r = targetPart000 g.
Proof.
  revert g. induction lines as [|l ls IH]; intros g Hall; [intros []|].
  simpl in Hall. apply andb_true_iff in Hall as [Hl Hall].
  apply negb_true_iff in Hl.
  destruct (Part000_step l g Hl) as [Ht [_ Hr]].
  simpl. destruct (Part000.processLine l g) as [g1 o1]; simpl in *.
  specialize (IH g1 Hall).
  destruct (Part000.processLines ls g1) as [g2 o2]; simpl in *.
  intros Hin. apply in_app_or in Hin as [Hin | Hin]; [now apply Hr|].
  rewrite <- Ht. now apply IH.
Qed.

(** X15: in [part_000], [ProcessFile] does not assign [currentTarget]: the
    code of a document without directives goes to the default code output
    of the document only when [currentTarget] is empty, as it is for the
    first document, and otherwise to the target the documents before have
    left. *)
Theorem X15_part_000_target_kept
  (file contents : string) (g g' : Part000.Globals) (textFile : string)
  (records : list Part000.Line) (r : Part000.Line) :
  Part000.ProcessFile file (Some contents) g = (g', Some (textFile, records)) ->
  forallb (fun l => negb (isDirective l)) (Go.readLines contents) = true ->
  In r records ->
  Part000.CodeTarget r = "" \/
  Part000.CodeTarget r
  = if Part000.currentTarget g =? "" then removeExtension file
    else Part000.currentTarget g.
Proof.
  unfold Part000.ProcessFile.
  set (g0 := Part000.mkGlobals _ _ _ _ _ _).
  pose proof (Part000_run (Go.readLines contents) g0 r) as H.
  destruct (Part000.processLines (Go.readLines contents) g0) as [g1 out].
  intros [= _ _ <-] Hall Hin. exact (H Hall Hin).
Qed.

Lemma X15_part_000_target_kept_witness :
  Part000.CodeTarget (Part000.mkLine "a.go" "b.md" ("int x = 1;" ++ nl)) = "" \/
  Part000.CodeTarget (Part000.mkLine "a.go" "b.md" ("int x = 1;" ++ nl))
  = if Part000.currentTarget (Part000.mkGlobals "a.go" false false "a.go" "a.md" true)
       =? ""
    then removeExtension "b.go.md"
    else Part000.currentTarget (Part000.mkGlobals "a.go" false false "a.go" "a.md" true).
Proof.
  apply (X15_part_000_target_kept "b.go.md" foo_cpp_md
           (Part000.mkGlobals "a.go" false false "a.go" "a.md" true)
           (Part000.mkGlobals "a.go" false false "b.go" "b.md" true)
           "b.md"
           [Part000.mkLine "a.go" "b.md" ("int x = 1;" ++ nl);
            Part000.mkLine "a.go" "b.md" ""]);
    [reflexivity | reflexivity | left; reflexivity].
Defined.



(** ** [part_000] and [mdweb.go] on documents without directives *)














(** * [part_001] *)

(** X19: the state functions of [part_001] and the switch of [mdweb.go] are
    the same machine: from states that correspond, any lines give the same
    records and states that correspond. *)
Theorem X19_variants_agree (b : Closures.BoundState) (lines : list string) :
  processLines lines (Closures.globals_of b)
  = (Closures.globals_of (fst (Closures.calls b lines)),
     snd (Closures.calls b lines)).
Proof. apply calls_processLines. Qed.

(** ** The lines of the scanner *)

Lemma pieces_cons (contents : string) :
  exists p ps, Bufio.pieces contents = p :: ps.
Proof.
  induction contents as [|c s [p [ps IH]]]; simpl; [eauto|].
  destruct (Ascii.eqb c Go.nl); [eauto|]. rewrite IH. eauto.
Qed.

Lemma unpieces_pieces (contents : string) :
  unpieces (Bufio.pieces contents) = contents.
Proof.
  induction contents as [|c s IH]; [reflexivity|].
  cbn [Bufio.pieces]. destruct (pieces_cons s) as [p [ps E]]. rewrite E in *.
  destruct (Ascii.eqb_spec c Go.nl) as [-> | _].
  - change (unpieces ("" :: p :: ps)) with ("" ++ nl ++ unpieces (p :: ps)).
    now rewrite IH.
  - destruct ps as [|q r].
    + simpl in *. now rewrite IH.
    + change (unpieces (String c p :: q :: r))
        with (String c (p ++ nl ++ unpieces (q :: r))).
      change (unpieces (p :: q :: r)) with (p ++ nl ++ unpieces (q :: r)) in IH.
      now rewrite IH.
Qed.

Lemma dropCR_plain (p : string) : endsWithCR p = false -> Bufio.dropCR p = p.
Proof.
  unfold endsWithCR, Bufio.dropCR.
  destruct (Go.rev_string p); [reflexivity|]. now intros ->.
Qed.

Lemma tokens_spec (ps : list string) (lines : list string) :
  ps <> [] ->
  Bufio.tokens ps = (lines, false) ->
  forallb (fun p => negb (endsWithCR p)) ps = true ->
  join (map ln lines) = unpieces ps ++ (if last ps "" =? "" then "" else nl).
Proof.
  revert lines. induction ps as [|p rest IH]; intros lines Hne; [contradiction|].
  cbn [Bufio.tokens forallb]. destruct (Bufio.tooLong p); [discriminate|].
  intros H Hall. apply andb_true_iff in Hall as [Hp Hall].
  apply negb_true_iff in Hp.
  destruct rest as [|q rest].
  - cbn [unpieces last]. destruct (String.eqb_spec p "") as [-> | Hpe].
    + injection H as <-. reflexivity.
    + injection H as <-. rewrite (dropCR_plain _ Hp). unfold ln. simpl.
      now rewrite append_empty_r.
  - destruct (Bufio.tokens (q :: rest)) as [ts err] eqn:E.
    injection H as <- ->.
    specialize (IH ts ltac:(discriminate) eq_refl Hall).
    rewrite (dropCR_plain _ Hp).
    cbn [map join fold_right]. fold (join (map ln ts)). rewrite IH.
    cbn [unpieces]. change (last (p :: q :: rest) "") with (last (q :: rest) "").
    unfold ln. now rewrite !append_assoc.
Qed.

(** X20: when the scanner ends without error on a file whose lines do not
    end in a carriage return, its lines, each followed by a newline, are the
    contents of the file, with a newline added when the file does not end
    in one. *)
Theorem X20_scanned_lines (contents : string) (lines : list string) :
  Bufio.Scan contents = (lines, false) ->
  forallb (fun p => negb (endsWithCR p)) (Bufio.pieces contents) = true ->
  join (map ln lines)
  = contents ++ (if last (Bufio.pieces contents) "" =? "" then "" else nl).
Proof.
  intros H Hall. unfold Bufio.Scan in H.
  rewrite <- (unpieces_pieces contents) at 1.
  apply tokens_spec; trivial.
  destruct (pieces_cons contents) as [p [ps ->]]. discriminate.
Qed.

Lemma X20_scanned_lines_witness :
  join (map ln ["# Title"; tab ++ "<<main.go>>"; tab ++ "package main"])
  = main_go_md ++ (if last (Bufio.pieces main_go_md) "" =? "" then "" else nl).
Proof.
  apply X20_scanned_lines; vm_compute; reflexivity.
Defined.

(** ** The text file of [part_001] *)



Section TextFile001.

Variable Create : string -> bool.
Variable getAbsTargetPath : string -> string -> option string.



End TextFile001.


(** ** The two variants of [mdtangle] *)



